(** * AuraPilot: the chat client, the document page, the auth store,
      and the retrieval pipeline they talk to

    The TypeScript client (verdant-ai-chat) is embedded from its sources:
    [lib/api.ts], [lib/store.ts], [components/ChatInterface.tsx] and
    [pages/Documents.tsx].  Asynchronous handlers are written in a small
    state-and-exception monad over the component state and the browser
    (localStorage, the requests sent, the console); the server is an oracle
    that resolves or rejects each request.

    The chunker and the vector index live in the Python backend; they are
    modelled from the specification and marked as such. *)

From Stdlib Require Import ZArith NArith QArith Lia.
From Stdlib Require Import Ascii String.
From stdpp Require Import base option list strings gmap sorting pretty.
From Equations Require Import Equations.

Set Default Proof Using "Type".
Local Open Scope nat_scope.

(* ===================================================================== *)
(** ** JavaScript values and strings *)
(* ===================================================================== *)

Module JS.

(** A JavaScript string is a sequence of UTF-16 code units. *)
Definition jsstring := list N.

(** An ASCII literal of the source, as code units. *)
Definition lit (s : string) : jsstring :=
  List.map N_of_ascii (list_ascii_of_string s).

(** WhiteSpace and LineTerminator code points, the ones
    [String.prototype.trim] strips. *)
Definition is_white_space (c : N) : bool :=
  ((c =? 0x09) || (c =? 0x0A) || (c =? 0x0B) || (c =? 0x0C) || (c =? 0x0D)
   || (c =? 0x20) || (c =? 0xA0) || (c =? 0x1680)
   || ((0x2000 <=? c) && (c <=? 0x200A))
   || (c =? 0x2028) || (c =? 0x2029) || (c =? 0x202F) || (c =? 0x205F)
   || (c =? 0x3000) || (c =? 0xFEFF))%N.

Fixpoint trimStart (s : jsstring) : jsstring :=
  match s with
  | c :: s' => if is_white_space c then trimStart s' else s
  | [] => []
  end.

Definition trimEnd (s : jsstring) : jsstring :=
  rev (trimStart (rev s)).

Definition trim (s : jsstring) : jsstring := trimEnd (trimStart s).

(** Values that cross the wire untyped ([any] in the source). *)
#[warnings="-register-all"]
Inductive jsval : Type :=
| JUndefined
| JNull
| JBool (b : bool)
| JNum (q : Q)
| JStr (s : jsstring)
| JArr (items : list jsval)
| JObj (fields : list (string * jsval)).

(** An object literal: its properties in insertion order. *)
Definition jsobj := list (string * jsval).

Fixpoint lookup_field (k : string) (o : jsobj) : jsval :=
  match o with
  | [] => JUndefined
  | (k', v) :: o' => if String.eqb k k' then v else lookup_field k o'
  end.


(** What the handlers can throw: a rejected request (axios error, with the
    [response.data.detail] it may carry) or a TypeError from reading a
    property of [undefined] or [null]. *)
Inductive jserror : Type :=
| AxiosError (detail : option jsstring)
| TypeError.

(** [v.k]: reading a property of [undefined] or [null] throws; a property
    that is not there reads as [undefined]. *)
Definition get_prop (v : jsval) (k : string) : jserror + jsval :=
  match v with
  | JUndefined | JNull => inl TypeError
  | JObj o => inr (lookup_field k o)
  | _ => inr JUndefined
  end.

(** Truthiness of a string: the empty string is falsy. *)
Definition truthy_str (s : jsstring) : bool :=
  match s with [] => false | _ => true end.

(** Truthiness of [string | null]. *)
Definition truthy_opt (s : option jsstring) : bool :=
  match s with Some s' => truthy_str s' | None => false end.

End JS.
Import JS.

(* ===================================================================== *)
(** ** Handlers as programs over a world *)
(* ===================================================================== *)

(** How a handler finishes: it returns, or an exception leaves it. *)
Inductive completion (A : Type) : Type :=
| Returned (a : A)
| Thrown (e : jserror).
Arguments Returned {A} a.
Arguments Thrown {A} e.

Definition Prog (W A : Type) : Type := W -> completion A * W.

Section ProgOps.
Context {W : Type}.

Definition pure {A} (a : A) : Prog W A := fun w => (Returned a, w).

Definition bind {A B} (m : Prog W A) (k : A -> Prog W B) : Prog W B :=
  fun w =>
    match m w with
    | (Returned a, w') => k a w'
    | (Thrown e, w') => (Thrown e, w')
    end.

Definition throw {A} (e : jserror) : Prog W A := fun w => (Thrown e, w).

Definition get : Prog W W := fun w => (Returned w, w).

Definition modify (f : W -> W) : Prog W unit := fun w => (Returned tt, f w).

(** [try { body } catch (err) { handler err }] *)
Definition try_catch {A} (body : Prog W A) (handler : jserror -> Prog W A)
  : Prog W A :=
  fun w =>
    match body w with
    | (Returned a, w') => (Returned a, w')
    | (Thrown e, w') => handler e w'
    end.

(** [try { body } finally { fin }]: [fin] runs either way; the completion
    of [body] stands unless [fin] itself throws. *)
Definition try_finally {A} (body : Prog W A) (fin : Prog W unit)
  : Prog W A :=
  fun w =>
    match body w with
    | (c, w') =>
        match fin w' with
        | (Returned _, w'') => (c, w'')
        | (Thrown e, w'') => (Thrown e, w'')
        end
    end.

(** Lifting a step that may throw. *)
Definition lift_result {A} (r : jserror + A) : Prog W A :=
  match r with
  | inl e => throw e
  | inr a => pure a
  end.

End ProgOps.

Notation "x <- m ;; k" := (bind m (fun x => k))
  (at level 100, m at next level, right associativity).
Notation "m ;;; k" := (bind m (fun _ => k))
  (at level 100, right associativity).

(* ===================================================================== *)
(** ** lib/api.ts: the axios client *)
(* ===================================================================== *)

Module Api.

Inductive Method : Type := GET | POST | DELETE.

(** A template literal such as [`/documents/${id}/reindex`]: literal
    pieces and the numbers spliced between them. *)
Inductive UrlPart : Type :=
| Lit (s : string)
| Num (n : Z).

Record Request : Type := mkRequest {
  method : Method;
  url : list UrlPart;
  body : option jsobj;
  authorization : option jsstring
}.

(** The part of the browser the client touches. *)
Record Browser : Type := mkBrowser {
  localStorage : gmap string jsstring;
  network : list Request;
  console : list (string * jserror)
}.

Record World (St : Type) : Type := mkWorld {
  comp : St;
  browser : Browser
}.
Arguments mkWorld {St} comp browser.
Arguments comp {St} w.
Arguments browser {St} w.

(** A settled request. *)
Inductive Reply (A : Type) : Type :=
| Resolved (data : A)
| Rejected (detail : option jsstring).
Arguments Resolved {A} data.
Arguments Rejected {A} detail.

Record User : Type := mkUser {
  id : Z;
  email : jsstring;
  username : jsstring;
  full_name : jsstring;
  is_active : bool;
  created_at : jsstring
}.

(** Payload of [/auth/login], at the shape [store.ts] reads it. *)
Record LoginData : Type := mkLoginData {
  access_token : jsstring;
  login_user : option User
}.

(** The backend, seen from the client: each endpoint answers a request
    given the requests sent before it. *)
Record Server : Type := mkServer {
  on_chat_query : list Request -> Request -> Reply jsval;
  on_login : list Request -> Request -> Reply LoginData;
  on_me : list Request -> Request -> Reply User;
  on_reindex : list Request -> Request -> Reply jsval
}.

Section Client.
Context {St : Type}.

Definition localStorage_getItem (k : string)
  : Prog (World St) (option jsstring) :=
  fun w => (Returned (localStorage (browser w) !! k), w).

Definition with_browser (f : Browser -> Browser) : Prog (World St) unit :=
  modify (fun w => mkWorld (comp w) (f (browser w))).

Definition localStorage_setItem (k : string) (v : jsstring)
  : Prog (World St) unit :=
  with_browser (fun b =>
    mkBrowser (<[k := v]> (localStorage b)) (network b) (console b)).

Definition localStorage_removeItem (k : string) : Prog (World St) unit :=
  with_browser (fun b =>
    mkBrowser (delete k (localStorage b)) (network b) (console b)).

Definition console_error (label : string) (err : jserror)
  : Prog (World St) unit :=
  with_browser (fun b =>
    mkBrowser (localStorage b) (network b) (console b ++ [(label, err)])).

(** The request interceptor: a truthy stored token becomes the
    [Authorization] header. *)
Definition intercept (b : Browser) (m : Method) (u : list UrlPart)
    (payload : option jsobj) : Request :=
  let token := localStorage b !! "access_token"%string in
  mkRequest m u payload
    (match token with
     | Some t => if truthy_str t then Some (lit "Bearer " ++ t) else None
     | None => None
     end).

(** [await api.post(...)] and friends: the request goes out, then the
    promise settles. *)
Definition send {A} (m : Method) (u : list UrlPart)
    (payload : option jsobj)
    (endpoint : list Request -> Request -> Reply A)
  : Prog (World St) A :=
  fun w =>
    let b := browser w in
    let req := intercept b m u payload in
    let w' := mkWorld (comp w)
                (mkBrowser (localStorage b) (network b ++ [req])
                   (console b)) in
    match endpoint (network b) req with
    | Resolved data => (Returned data, w')
    | Rejected detail => (Thrown (AxiosError detail), w')
    end.

Variable server : Server.

Definition authAPI_login (username password : jsstring)
  : Prog (World St) LoginData :=
  send POST [Lit "/auth/login"]
    (Some [("username"%string, JStr username);
           ("password"%string, JStr password)])
    (on_login server).

Definition authAPI_getMe : Prog (World St) User :=
  send GET [Lit "/auth/me"] None (on_me server).

Definition authAPI_logout : Prog (World St) unit :=
  localStorage_removeItem "access_token".

Definition chatAPI_query (query : jsstring) (temperature : Q)
    (includeSources : bool) : Prog (World St) jsval :=
  send POST [Lit "/chat/query"]
    (Some [("query"%string, JStr query);
           ("temperature"%string, JNum temperature);
           ("include_sources"%string, JBool includeSources)])
    (on_chat_query server).

Definition documentAPI_reindex (id : Z) : Prog (World St) jsval :=
  send POST [Lit "/documents/"; Num id; Lit "/reindex"] (Some [])
    (on_reindex server).

End Client.

(** The browser once a request has gone out. *)
Definition after_request (b : Browser) (req : Request) : Browser :=
  mkBrowser (localStorage b) (network b ++ [req]) (console b).

(** The requests the wrappers above send from a given browser. *)
Definition chat_query_request (b : Browser) (query : jsstring)
    (temperature : Q) (includeSources : bool) : Request :=
  intercept b POST [Lit "/chat/query"]
    (Some [("query"%string, JStr query);
           ("temperature"%string, JNum temperature);
           ("include_sources"%string, JBool includeSources)]).

Definition login_request (b : Browser) (username password : jsstring)
  : Request :=
  intercept b POST [Lit "/auth/login"]
    (Some [("username"%string, JStr username);
           ("password"%string, JStr password)]).

Definition me_request (b : Browser) : Request :=
  intercept b GET [Lit "/auth/me"] None.

Definition reindex_request (b : Browser) (id : Z) : Request :=
  intercept b POST [Lit "/documents/"; Num id; Lit "/reindex"] (Some []).

End Api.
Import Api.

(* ===================================================================== *)
(** ** components/ChatInterface.tsx *)
(* ===================================================================== *)

Module ChatInterface.

Inductive Role : Type := user | assistant.

(** [sources?]: [None] when the property is absent. *)
Record Message : Type := mkMessage {
  role : Role;
  content : jsval;
  sources : option jsval
}.

Record ChatState : Type := mkChat {
  messages : list Message;
  input : jsstring;
  loading : bool
}.

Definition failure_text : jsstring :=
  lit "Sorry, there was an error processing your message. Please try again.".

Definition user_message (text : jsstring) : Message :=
  mkMessage user (JStr text) None.

Definition failure_message : Message :=
  mkMessage assistant (JStr failure_text) None.

Definition with_comp (f : ChatState -> ChatState)
  : Prog (World ChatState) unit :=
  modify (fun w => mkWorld (f (comp w)) (browser w)).

(** [setMessages(prev => ...)] *)
Definition setMessages (f : list Message -> list Message) :=
  with_comp (fun st => mkChat (f (messages st)) (input st) (loading st)).

(** [setMessages(updater)] where the updater can throw.  React runs the
    updater itself, outside the handler that passed it: the handler does
    not see the exception, and no new list is stored. *)
Definition setMessagesWith (f : list Message -> jserror + list Message) :=
  with_comp (fun st =>
    match f (messages st) with
    | inr ms => mkChat ms (input st) (loading st)
    | inl _ => st
    end).

(** The updater [prev => [...prev, { role: 'assistant', content:
    data.response, sources: data.sources }]]: the two properties are read
    when the updater runs. *)
Definition show_answer (data : jsval) (prev : list Message)
  : jserror + list Message :=
  match get_prop data "response" with
  | inl e => inl e
  | inr response =>
      match get_prop data "sources" with
      | inl e => inl e
      | inr srcs => inr (prev ++ [mkMessage assistant response (Some srcs)])
      end
  end.

Definition setInput (s : jsstring) :=
  with_comp (fun st => mkChat (messages st) s (loading st)).

Definition setLoading (b : bool) :=
  with_comp (fun st => mkChat (messages st) (input st) b).

(** [!input.trim() || loading] *)
Definition send_blocked (st : ChatState) : bool :=
  negb (truthy_str (trim (input st))) || loading st.

Section Handler.
Variable server : Server.

(** The [try] block: the query, then [setMessages] with the updater
    above. *)
Definition query_and_show (userMessage : jsstring)
  : Prog (World ChatState) unit :=
  data <- chatAPI_query server userMessage (7 # 10) true ;;
  setMessagesWith (show_answer data).

Definition show_failure (err : jserror) : Prog (World ChatState) unit :=
  console_error "Error sending message:" err ;;;
  setMessages (fun prev => prev ++ [failure_message]).

Definition handleSendMessage : Prog (World ChatState) unit :=
  w <- get ;;
  let st := comp w in
  if send_blocked st then pure tt
  else
    let userMessage := trim (input st) in
    setMessages (fun prev => prev ++ [user_message userMessage]) ;;;
    setInput [] ;;;
    setLoading true ;;;
    try_finally
      (try_catch (query_and_show userMessage) show_failure)
      (setLoading false).

End Handler.

End ChatInterface.

(* ===================================================================== *)
(** ** pages/Documents.tsx *)
(* ===================================================================== *)

Module Documents.

(** ['pending' | 'processing' | 'completed' | 'failed'] *)
Inductive ProcessingStatus : Type :=
| pending
| processing
| completed
| failed.

(** The string each member of the union is on the wire and on screen. *)
Definition status_name (s : ProcessingStatus) : string :=
  match s with
  | pending => "pending"
  | processing => "processing"
  | completed => "completed"
  | failed => "failed"
  end.

Record Document : Type := mkDocument {
  id : Z;
  filename : jsstring;
  file_size : option Z;
  processing_status : ProcessingStatus;
  chunk_count : Z;
  error_message : option jsstring;
  created_at : jsstring
}.

(** The icons [getStatusIcon] can return; [ClockStill] is the [default]
    branch (a clock without the pulse animation). *)
Inductive Icon : Type :=
| CheckCircle
| ClockPulse
| AlertCircle
| ClockStill.

Definition getStatusIcon (status : string) : Icon :=
  if String.eqb status "completed" then CheckCircle
  else if String.eqb status "indexed" then CheckCircle
  else if String.eqb status "pending" then ClockPulse
  else if String.eqb status "processing" then ClockPulse
  else if String.eqb status "failed" then AlertCircle
  else ClockStill.

(** What the row shows for a status as it came in: the icon, and the
    status string itself (capitalised by a style only). *)
Definition render_status (status : string) : Icon * string :=
  (getStatusIcon status, status).

(** [status === 'failed'], the guard of the reindex button. *)
Definition reindex_guard (status : string) : bool :=
  String.eqb status "failed".

(** What one row of the list shows. *)
Record Row : Type := mkRow {
  row_name : jsstring;
  row_chunks : Z;
  row_icon : Icon;
  row_status : string;
  row_error : option jsstring;
  row_reindex : bool;
  row_delete : bool
}.

Definition render_row (doc : Document) : Row :=
  let status := status_name (processing_status doc) in
  mkRow (filename doc) (chunk_count doc)
    (getStatusIcon status) status
    (if truthy_opt (error_message doc) then error_message doc else None)
    (reindex_guard status)
    true.

(** The statuses of the specification's data model, in its words. *)
Definition spec_statuses : list string :=
  ["pending"; "processing"; "indexed"; "failed"]%string.

(** The precondition of the reindex boundary, in the specification's
    words: current status failed or indexed. *)
Definition spec_reindexable (status : string) : Prop :=
  status = "failed"%string \/ status = "indexed"%string.

End Documents.

(* ===================================================================== *)
(** ** lib/store.ts: the auth store *)
(* ===================================================================== *)

Module Store.

Record AuthState : Type := mkAuth {
  user : option User;
  token : option jsstring;
  isLoading : bool;
  error : option jsstring
}.

Definition initial (b : Browser) : AuthState :=
  mkAuth None (localStorage b !! "access_token"%string) false None.

(** [set(partial)]: zustand merges the given fields into the state. *)
Definition set (f : AuthState -> AuthState) : Prog (World AuthState) unit :=
  modify (fun w => mkWorld (f (comp w)) (browser w)).

(** [err.response?.data?.detail || fallback] *)
Definition detail_or (err : jserror) (fallback : jsstring) : jsstring :=
  match err with
  | AxiosError (Some d) => if truthy_str d then d else fallback
  | AxiosError None => fallback
  | TypeError => fallback
  end.

Section Actions.
Variable server : Server.

Definition login (username password : jsstring)
  : Prog (World AuthState) unit :=
  set (fun s => mkAuth (user s) (token s) true None) ;;;
  try_catch
    (data <- authAPI_login server username password ;;
     localStorage_setItem "access_token" (access_token data) ;;;
     set (fun s => mkAuth (user s) (Some (access_token data))
                     (isLoading s) (error s)) ;;;
     match login_user data with
     | Some u =>
         set (fun s => mkAuth (Some u) (token s) false (error s))
     | None =>
         userRes <- authAPI_getMe server ;;
         set (fun s => mkAuth (Some userRes) (token s) false (error s))
     end)
    (fun err =>
       set (fun s => mkAuth (user s) (token s) false
                       (Some (detail_or err (lit "Login failed")))) ;;;
       throw err).

Definition logout : Prog (World AuthState) unit :=
  authAPI_logout ;;;
  set (fun s => mkAuth None None (isLoading s) (error s)).

Definition checkAuth : Prog (World AuthState) unit :=
  stored <- localStorage_getItem "access_token" ;;
  if negb (truthy_opt stored) then pure tt
  else
    try_catch
      (data <- authAPI_getMe server ;;
       set (fun s => mkAuth (Some data) stored (isLoading s) (error s)))
      (fun _ =>
         authAPI_logout ;;;
         set (fun s => mkAuth None None (isLoading s) (error s))).

Definition clearError : Prog (World AuthState) unit :=
  set (fun s => mkAuth (user s) (token s) (isLoading s) None).

End Actions.

End Store.

(* ===================================================================== *)
(** ** The chunker (backend) *)
(* ===================================================================== *)

Module Chunker.

Section Split.
Context {A : Type}.

(** Modelled from the spec: a chunk of section 3, its 0-based ordinal and
    its text. *)
Record Chunk : Type := mkChunk {
  position : nat;
  text : list A
}.

(** Modelled from the spec: the backend chunker is not among the
    sources.  Section 4.1: a window of [size] characters slides across
    the text, advancing by [step] each time; the final chunk may be
    shorter; empty text gives no chunk.  The window is taken while it
    still starts inside the text. *)
Equations? slide (size step : nat) (txt : list A) : list (list A)
  by wf (length txt) lt :=
  slide size 0 txt := [];
  slide size (S k) [] := [];
  slide size (S k) (c :: rest) :=
    take size (c :: rest) :: slide size (S k) (drop k rest).
Proof. rewrite length_drop. cbn. lia. Qed.

(** Modelled from the spec: [split(text, chunk_size, overlap)] of
    section 4.1, with its constraint [0 <= overlap < chunk_size]; a
    configuration outside the constraint has no result.  The step is
    [chunk_size - overlap], and each chunk is tagged with its ordinal. *)
Definition split (txt : list A) (chunk_size overlap : nat)
  : option (list Chunk) :=
  if decide (overlap < chunk_size)
  then Some (imap mkChunk (slide chunk_size (chunk_size - overlap) txt))
  else None.

(** Modelled from the spec: section 8, concatenating the chunk texts minus
    the overlaps.  Every chunk after the first gives up its first [overlap]
    characters. *)
Definition join_without_overlaps (overlap : nat) (chunks : list (list A))
  : list A :=
  match chunks with
  | [] => []
  | c :: cs => c ++ concat (drop overlap <$> cs)
  end.

End Split.
Arguments Chunk A : clear implicits.

End Chunker.

(* ===================================================================== *)
(** ** The vector index and the query orchestrator (backend) *)
(* ===================================================================== *)

Module Retrieval.

(** Modelled from the spec: the vector record of section 3 and its
    metadata. *)
Record Metadata : Type := mkMetadata {
  document_id : Z;
  filename : string;
  chunk_text : string;
  position : nat
}.

(** Modelled from the spec: a stored vector with its metadata; its id and
    namespace are the keys it is stored under. *)
Record VectorRecord : Type := mkVectorRecord {
  embedding : list Q;
  metadata : Metadata
}.

(** Modelled from the spec: one entry of a query result, section 4.3. *)
Record Hit : Type := mkHit {
  vector_id : string;
  score : Q;
  hit_metadata : Metadata
}.

(** Modelled from the spec: one entry of [retrieved_sources], section 3. *)
Record Source : Type := mkSource {
  src_document_id : Z;
  src_filename : string;
  relevance_score : Q;
  src_chunk_text : string
}.

(** Modelled from the spec: the options of section 6 the query path
    reads. *)
Record Config : Type := mkConfig {
  top_k : nat;
  min_score : Q;
  max_context_length : nat
}.

#[export] Instance Qle_decision (x y : Q) : Decision (x <= y)%Q :=
  match Qlt_le_dec y x with
  | left H => right (Qlt_not_le _ _ H)
  | right H => left H
  end.

(** Modelled from the spec: descending score; [h1] may stand before [h2]. *)
Definition score_desc (h1 h2 : Hit) : Prop := (score h2 <= score h1)%Q.

#[export] Instance score_desc_decision : RelDecision score_desc :=
  fun h1 h2 => Qle_decision (score h2) (score h1).

(** Modelled from the spec: where a selected chunk comes from, a
    retrieved one with the same id, score, document and filename (only its
    text may have been cut). *)
Definition same_origin (h h0 : Hit) : Prop :=
  vector_id h = vector_id h0 /\ score h = score h0
  /\ document_id (hit_metadata h) = document_id (hit_metadata h0)
  /\ filename (hit_metadata h) = filename (hit_metadata h0).

(** Modelled from the spec: descending relevance, on the sources handed to
    the caller. *)
Definition relevance_desc (s1 s2 : Source) : Prop :=
  (relevance_score s2 <= relevance_score s1)%Q.

Section Index.
(** Modelled from the spec: the similarity of section 4.3 (cosine,
    normalised), taken as given. *)
Variable similarity : list Q -> list Q -> Q.

(** Modelled from the spec: the records of one namespace, each scored
    against the query vector. *)
Definition scored (records : gmap string VectorRecord) (qv : list Q)
  : list Hit :=
  (fun p => mkHit p.1 (similarity qv (embedding p.2)) (metadata p.2))
    <$> map_to_list records.

(** Modelled from the spec: the entries at or above the minimum score. *)
Definition qualifying (min : Q) (hits : list Hit) : list Hit :=
  filter (fun h => (min <= score h)%Q) hits.

(** Modelled from the spec: the vector index is not among the sources.
    By section 4.3, [query(namespace, query_vector, top_k, min_score)]
    returns the records of that namespace sorted by descending score,
    without those below [min_score], at most [top_k] of them. *)
Definition query (index : gmap string (gmap string VectorRecord))
    (namespace : string) (qv : list Q) (k : nat) (min : Q) : list Hit :=
  take k (merge_sort score_desc
            (qualifying min (scored (default ∅ (index !! namespace)) qv))).

(** Modelled from the spec: a chunk in the context, its text prefixed with
    its filename (section 4.5 step 3). *)
Definition piece (h : Hit) : string :=
  String.append (filename (hit_metadata h)) (chunk_text (hit_metadata h)).

(** Modelled from the spec: whole chunks, in order, while they fit the
    remaining budget. *)
Fixpoint fill (budget : nat) (hits : list Hit) : list Hit :=
  match hits with
  | [] => []
  | h :: rest =>
      if String.length (piece h) <=? budget
      then h :: fill (budget - String.length (piece h)) rest
      else []
  end.

(** Modelled from the spec: the first chunk cut so that, with its
    filename, it fits the budget. *)
Definition truncate_to (budget : nat) (h : Hit) : Hit :=
  let m := hit_metadata h in
  mkHit (vector_id h) (score h)
    (mkMetadata (document_id m) (filename m)
       (substring 0 (budget - String.length (filename m)) (chunk_text m))
       (position m)).

(** Modelled from the spec: section 4.5 step 3.  The chunks are walked
    in descending score, stopping before the context would pass the
    maximum; a first chunk that alone passes it is cut to fit. *)
Definition select_context (budget : nat) (hits : list Hit) : list Hit :=
  match hits with
  | [] => []
  | h :: _ =>
      if budget <? String.length (piece h)
      then [truncate_to budget h]
      else fill budget hits
  end.

(** Modelled from the spec: a used chunk as a source, annotated with its
    relevance score and filename (section 4.5 step 5). *)
Definition source_of (h : Hit) : Source :=
  let m := hit_metadata h in
  mkSource (document_id m) (filename m) (score h) (chunk_text m).

(** Modelled from the spec: [embed] of section 4.2, taken as given. *)
Variable embed : string -> list Q.

(** Modelled from the spec: section 4.5 steps 1 to 3 and 5.  The query
    is embedded, the asking user's namespace is queried with the
    configured top-K and minimum score, and [retrieved_sources] are the
    chunks that went into the context. *)
Definition retrieved_sources (cfg : Config)
    (index : gmap string (gmap string VectorRecord))
    (owner_id : string) (query_text : string) : list Source :=
  source_of <$>
    select_context (max_context_length cfg)
      (query index owner_id (embed query_text) (top_k cfg) (min_score cfg)).

End Index.

End Retrieval.

(* ===================================================================== *)
(** ** Sample servers, worlds and documents *)
(* ===================================================================== *)

Module Samples.

(** A backend that rejects every request, with the given detail. *)
Definition rejecting (detail : option jsstring) : Server :=
  mkServer (fun _ _ => Rejected detail) (fun _ _ => Rejected detail)
    (fun _ _ => Rejected detail) (fun _ _ => Rejected detail).

(** A backend whose chat endpoint resolves with [data]. *)
Definition answering (data : jsval) : Server :=
  mkServer (fun _ _ => Resolved data) (fun _ _ => Rejected None)
    (fun _ _ => Rejected None) (fun _ _ => Resolved JNull).

Definition alice : User :=
  mkUser 1%Z (lit "alice@example.com") (lit "alice") (lit "Alice A")
    true (lit "2024-01-01").

(** A backend whose [/auth/me] resolves with [alice]. *)
Definition knowing_alice : Server :=
  mkServer (fun _ _ => Rejected None) (fun _ _ => Rejected None)
    (fun _ _ => Resolved alice) (fun _ _ => Rejected None).

Definition fresh_browser : Browser := mkBrowser ∅ [] [].

Definition browser_with_token (t : string) : Browser :=
  mkBrowser {[ "access_token"%string := lit t ]} [] [].

Definition chat_world (typed : string) (busy : bool)
  : World ChatInterface.ChatState :=
  mkWorld (ChatInterface.mkChat [] (lit typed) busy) fresh_browser.

Definition auth_world (b : Browser) : World Store.AuthState :=
  mkWorld (Store.initial b) b.

Definition indexed_report : Documents.Document :=
  Documents.mkDocument 7%Z (lit "report.pdf") (Some 2048%Z)
    Documents.completed 3%Z None (lit "2024-01-01").

Definition failed_report : Documents.Document :=
  Documents.mkDocument 8%Z (lit "scan.pdf") (Some 4096%Z)
    Documents.failed 0%Z (Some (lit "no extractable content")) (lit "2024-01-02").

(** A similarity for examples: the first coordinate of the stored vector. *)
Definition first_coordinate (_ v : list Q) : Q := List.hd 0%Q v.

Definition note (doc : Z) (name body : string) (pos : nat) (s : Q)
  : Retrieval.VectorRecord :=
  Retrieval.mkVectorRecord [s] (Retrieval.mkMetadata doc name body pos).

(** Two owners; [u1] has four vectors, one of them below 1/2. *)
Definition small_index : gmap string (gmap string Retrieval.VectorRecord) :=
  {[ "u1"%string :=
       {[ "7_0"%string := note 7 "a.txt" "alpha" 0 (6 # 10);
          "7_1"%string := note 7 "a.txt" "beta" 1 (9 # 10);
          "8_0"%string := note 8 "b.txt" "gamma" 0 (3 # 10);
          "8_1"%string := note 8 "b.txt" "delta" 1 (7 # 10) ]};
     "u2"%string :=
       {[ "9_0"%string := note 9 "c.txt" "alpha" 0 (99 # 100) ]} ]}.

End Samples.

(* ===================================================================== *)
(** ** lib/api.ts: the remaining endpoints *)
(* ===================================================================== *)

Module ApiMore.

(** Payload of [/auth/register], at the two shapes [store.ts] tells apart:
    one with a truthy [access_token] (a first code unit and the rest) and
    a [user] that may be missing, or one without, which is read as the
    user. *)
Inductive RegisterData : Type :=
| TokenAndUser (first : N) (rest : jsstring) (registered : option User)
| BareUser (registered : User).

(** Payload of the document list: an array of documents, or something
    [Array.isArray] refuses. *)
Inductive ListPayload : Type :=
| DocArray (docs : list Documents.Document)
| NotAnArray.

(** A [File] as far as the page reads it. *)
Record File : Type := mkFile {
  name : jsstring
}.

(** The endpoints beside those of [Server]. *)
Record Backend : Type := mkBackend {
  on_register : list Request -> Request -> Reply RegisterData;
  on_messages : list Request -> Request -> Reply jsval;
  on_clear_history : list Request -> Request -> Reply jsval;
  on_upload : list Request -> Request -> Reply Documents.Document;
  on_list : list Request -> Request -> Reply ListPayload;
  on_delete : list Request -> Request -> Reply jsval
}.

Section Client.
Context {St : Type}.
Variable backend : Backend.

(** [full_name: fullName], where [fullName?] may be left out. *)
Definition authAPI_register (email username password : jsstring)
    (fullName : option jsstring) : Prog (World St) RegisterData :=
  send POST [Lit "/auth/register"]
    (Some [("email"%string, JStr email);
           ("username"%string, JStr username);
           ("password"%string, JStr password);
           ("full_name"%string,
            match fullName with Some n => JStr n | None => JUndefined end)])
    (on_register backend).

Definition chatAPI_getMessages (skip limit : Z) : Prog (World St) jsval :=
  send GET [Lit "/chat/messages?skip="; Num skip; Lit "&limit="; Num limit]
    None (on_messages backend).

Definition chatAPI_clearHistory : Prog (World St) jsval :=
  send DELETE [Lit "/chat/history"] None (on_clear_history backend).

(** The form data with its one entry, [file]; the file stands by its
    name.  The multipart Content-Type header the call adds is not part of
    [Request] and is left out. *)
Definition documentAPI_upload (file : File)
  : Prog (World St) Documents.Document :=
  send POST [Lit "/documents/upload"]
    (Some [("file"%string, JObj [("name"%string, JStr (name file))])])
    (on_upload backend).

Definition documentAPI_list (skip limit : Z) : Prog (World St) ListPayload :=
  send GET [Lit "/documents/?skip="; Num skip; Lit "&limit="; Num limit]
    None (on_list backend).

Definition documentAPI_delete (id : Z) : Prog (World St) jsval :=
  send DELETE [Lit "/documents/"; Num id] None (on_delete backend).

End Client.

End ApiMore.

(* ===================================================================== *)
(** ** components/ChatInterface.tsx: the controls around the handler *)
(* ===================================================================== *)

Module ChatControls.
Import ChatInterface.

(** [disabled={loading || !input.trim()}] of the submit button. *)
Definition submit_disabled (st : ChatState) : bool :=
  loading st || negb (truthy_str (trim (input st))).

(** [disabled={loading}] of the text area. *)
Definition textarea_disabled (st : ChatState) : bool := loading st.

Record KeyboardEvent : Type := mkKey {
  key : string;
  shiftKey : bool
}.

(** The suggestions of the empty conversation. *)
Definition suggestions : list jsstring :=
  [lit "Summarize my uploaded documents";
   lit "What are the key points from the files?";
   lit "Help me understand this document";
   lit "Find information about..."].

(** [onClick={() => setInput(suggestion)}] and the text area's
    [onChange]. *)
Definition click_suggestion (suggestion : jsstring) := setInput suggestion.
Definition onChange (value : jsstring) := setInput value.

Section Handlers.
Variable server : Server.

(** The result tells whether [e.preventDefault()] was called. *)
Definition handleKeyDown (e : KeyboardEvent)
  : Prog (World ChatState) bool :=
  if String.eqb (key e) "Enter" && negb (shiftKey e)
  then handleSendMessage server ;;; pure true
  else pure false.

End Handlers.


End ChatControls.

(* ===================================================================== *)
(** ** pages/Chat.tsx *)
(* ===================================================================== *)

Module ChatPage.
Import ChatInterface.

Definition handleNewChat : Prog (World ChatState) unit :=
  setMessages (fun _ => []).

Section Handlers.
Variable backend : ApiMore.Backend.

Definition handleClearHistory : Prog (World ChatState) unit :=
  try_catch
    (ApiMore.chatAPI_clearHistory backend ;;;
     setMessages (fun _ => []))
    (fun err => console_error "Error clearing history:" err).

End Handlers.

End ChatPage.

(* ===================================================================== *)
(** ** pages/Documents.tsx: the handlers *)
(* ===================================================================== *)

Module DocumentsPage.
Import Documents ApiMore.

Inductive Toast : Type :=
| ToastSuccess (message : jsstring)
| ToastError (message : jsstring).

(** The page's state, with the toasts it has raised. *)
Record PageState : Type := mkPage {
  documents : list Document;
  loading : bool;
  uploading : bool;
  dragActive : bool;
  toasts : list Toast
}.

Definition with_page (f : PageState -> PageState)
  : Prog (World PageState) unit :=
  modify (fun w => mkWorld (f (comp w)) (browser w)).

Definition setDocuments (f : list Document -> list Document) :=
  with_page (fun st =>
    mkPage (f (documents st)) (loading st) (uploading st) (dragActive st)
      (toasts st)).

Definition setLoading (b : bool) :=
  with_page (fun st =>
    mkPage (documents st) b (uploading st) (dragActive st) (toasts st)).

Definition setUploading (b : bool) :=
  with_page (fun st =>
    mkPage (documents st) (loading st) b (dragActive st) (toasts st)).

Definition setDragActive (b : bool) :=
  with_page (fun st =>
    mkPage (documents st) (loading st) (uploading st) b (toasts st)).

Definition toast (t : Toast) :=
  with_page (fun st =>
    mkPage (documents st) (loading st) (uploading st) (dragActive st)
      (toasts st ++ [t])).

(** The request an upload of [file] sends from a given browser, and the
    toast its success raises. *)
Definition upload_request (b : Browser) (file : File) : Request :=
  intercept b POST [Lit "/documents/upload"]
    (Some [("file"%string, JObj [("name"%string, JStr (name file))])]).

Definition uploaded_toast (file : File) : Toast :=
  ToastSuccess (name file ++ lit " uploaded successfully").

(** [doc.id !== id] *)
Definition other_than (i : Z) (doc : Document) : bool :=
  negb (Z.eqb (id doc) i).

(** [(num / den).toFixed(1)] for a whole [num] from 0 to below 2^53 and
    [den] a power of two; it is used on such numbers only.  The division
    is then exact in a double, the value is far below 1e21, and
    [toFixed] takes the integer [n] with [n / 10] nearest to the value, the
    larger one on a tie, and prints it with one digit after the point. *)
Definition toFixed1 (num den : Z) : string :=
  let n := ((20 * num + den) / (2 * den))%Z in
  String.append (pretty (n / 10)%Z) (String.append "." (pretty (n mod 10)%Z)).

(** The whole numbers a double holds exactly (the safe integers). *)
Definition safe_integer (n : Z) : Prop := (- 2 ^ 53 < n < 2 ^ 53)%Z.

(** [formatFileSize(bytes)] for a safe integer; [None] marks the numbers
    this model does not cover (beyond the safe integers a double rounds,
    and from 1e21 on [toFixed] prints an exponent), not a result of the
    code. *)
Definition formatFileSize (bytes : Z) : option string :=
  if decide (safe_integer bytes) then
    Some (if (bytes <? 1024)%Z then String.append (pretty bytes) " B"
          else if (bytes <? 1024 * 1024)%Z
               then String.append (toFixed1 bytes 1024) " KB"
               else String.append (toFixed1 bytes (1024 * 1024)) " MB")
  else None.

(** [formatFileSize(doc.file_size || 0)]: [null] and [0] both give 0. *)
Definition row_size (doc : Document) : option string :=
  formatFileSize (default 0%Z (file_size doc)).

Section Handlers.
Variable server : Server.
Variable backend : Backend.
(** The user's answer to [confirm(prompt)]. *)
Variable confirm : jsstring -> bool.

Definition loadDocuments : Prog (World PageState) unit :=
  setLoading true ;;;
  try_finally
    (try_catch
       (payload <- documentAPI_list backend 0 50 ;;
        setDocuments (fun _ =>
          match payload with DocArray docs => docs | NotAnArray => [] end))
       (fun err =>
          console_error "Error loading documents:" err ;;;
          toast (ToastError (lit "Failed to load documents")) ;;;
          setDocuments (fun _ => [])))
    (setLoading false).

(** The body of [for (const file of Array.from(files))]. *)
Fixpoint upload_each (files : list File) : Prog (World PageState) unit :=
  match files with
  | [] => pure tt
  | file :: rest =>
      data <- documentAPI_upload backend file ;;
      setDocuments (fun prev => data :: prev) ;;;
      toast (ToastSuccess (name file ++ lit " uploaded successfully")) ;;;
      upload_each rest
  end.

(** [files: FileList | null] *)
Definition handleUpload (files : option (list File))
  : Prog (World PageState) unit :=
  match files with
  | None => pure tt
  | Some [] => pure tt
  | Some fs =>
      setUploading true ;;;
      try_finally
        (try_catch (upload_each fs)
           (fun err =>
              console_error "Error uploading document:" err ;;;
              toast (ToastError
                       (Store.detail_or err
                          (lit "Failed to upload document")))))
        (setUploading false)
  end.

(** [`Delete "${filename}"?`] *)
Definition delete_prompt (filename : jsstring) : jsstring :=
  lit "Delete " ++ [34%N] ++ filename ++ [34%N; 63%N].

Definition handleDelete (i : Z) (filename : jsstring)
  : Prog (World PageState) unit :=
  if negb (confirm (delete_prompt filename)) then pure tt
  else
    try_catch
      (documentAPI_delete backend i ;;;
       setDocuments (fun prev => List.filter (other_than i) prev) ;;;
       toast (ToastSuccess (lit "Document deleted")))
      (fun err =>
         console_error "Error deleting document:" err ;;;
         toast (ToastError (lit "Failed to delete document"))).

(** [loadDocuments()] is started, not awaited; it cannot throw into the
    [catch]. *)
Definition handleReindex (i : Z) : Prog (World PageState) unit :=
  try_catch
    (documentAPI_reindex server i ;;;
     toast (ToastSuccess (lit "Document reindexing started")) ;;;
     try_catch loadDocuments (fun _ => pure tt))
    (fun err =>
       console_error "Error reindexing document:" err ;;;
       toast (ToastError (lit "Failed to reindex document"))).

(** [e.type] of a drag event. *)
Definition handleDrag (type : string) : Prog (World PageState) unit :=
  if String.eqb type "dragenter" || String.eqb type "dragover"
  then setDragActive true
  else if String.eqb type "dragleave" then setDragActive false
  else pure tt.

Definition handleDrop (files : option (list File))
  : Prog (World PageState) unit :=
  setDragActive false ;;;
  handleUpload files.

End Handlers.

End DocumentsPage.

(* ===================================================================== *)
(** ** lib/store.ts: register, and the store driven by its actions *)
(* ===================================================================== *)

Module StoreActions.
Import Store ApiMore.

Section Actions.
Variable server : Server.
Variable backend : Backend.

Definition register (email username password fullName : jsstring)
  : Prog (World AuthState) unit :=
  set (fun s => mkAuth (user s) (token s) true None) ;;;
  try_catch
    (data <- authAPI_register backend email username password
               (Some fullName) ;;
     match data with
     | TokenAndUser c rest u =>
         localStorage_setItem "access_token" (c :: rest) ;;;
         set (fun s => mkAuth u (Some (c :: rest)) false (error s))
     | BareUser u =>
         set (fun s => mkAuth (Some u) (token s) false (error s))
     end)
    (fun err =>
       set (fun s => mkAuth (user s) (token s) false
                       (Some (detail_or err (lit "Registration failed")))) ;;;
       throw err).

(** What a page can ask of the store. *)
Inductive Action : Type :=
| Login (username password : jsstring)
| Register (email username password fullName : jsstring)
| Logout
| CheckAuth
| ClearError.

Definition perform (a : Action) : Prog (World AuthState) unit :=
  match a with
  | Login u p => login server u p
  | Register e u p f => register e u p f
  | Logout => logout
  | CheckAuth => checkAuth server
  | ClearError => clearError
  end.

(** The actions one after the other; a page that calls an action catches
    what it throws, so the next action starts from the world the failed
    one left. *)
Fixpoint perform_all (actions : list Action) (w : World AuthState)
  : World AuthState :=
  match actions with
  | [] => w
  | a :: rest => perform_all rest (perform a w).2
  end.

(** [checkAuth] up to its [await]: nothing when there is no truthy stored
    token; else the token read and how [/auth/me] settles. *)
Definition checkAuth_until_await
  : Prog (World AuthState) (option (option jsstring * (jserror + User))) :=
  stored <- localStorage_getItem "access_token" ;;
  if negb (truthy_opt stored) then pure None
  else
    settled <- try_catch (data <- authAPI_getMe server ;; pure (inr data))
                 (fun err => pure (inl err)) ;;
    pure (Some (stored, settled)).

(** [checkAuth] from its [await] on, with the token read before it. *)
Definition checkAuth_after_await (stored : option jsstring)
    (settled : jserror + User) : Prog (World AuthState) unit :=
  match settled with
  | inr data =>
      set (fun s => mkAuth (Some data) stored (isLoading s) (error s))
  | inl _ =>
      authAPI_logout ;;;
      set (fun s => mkAuth None None (isLoading s) (error s))
  end.

(** [checkAuth] with another action of the store run to its end while
    [checkAuth] awaits; what that action throws goes to its own caller. *)
Definition checkAuth_with (during : Prog (World AuthState) unit)
  : Prog (World AuthState) unit :=
  paused <- checkAuth_until_await ;;
  match paused with
  | None => pure tt
  | Some (stored, settled) =>
      try_catch during (fun _ => pure tt) ;;;
      checkAuth_after_await stored settled
  end.

End Actions.

(** The store's token is the one in localStorage. *)
Definition token_mirrors_storage (w : World AuthState) : Prop :=
  token (comp w) = localStorage (browser w) !! "access_token"%string.

End StoreActions.

(* ===================================================================== *)
(** ** components/ChatSidebar.tsx and pages/Register.tsx *)
(* ===================================================================== *)

Module ChatSidebar.



(** [user?.full_name || user?.username]; [None] where the page would
    render [undefined], that is nothing. *)
Definition display_name (u : option User) : option jsstring :=
  match u with
  | None => None
  | Some u =>
      if truthy_str (full_name u) then Some (full_name u)
      else Some (username u)
  end.

End ChatSidebar.

Module RegisterPage.
Import Store StoreActions.

Section Handlers.
Variable backend : ApiMore.Backend.

(** The result tells the toast raised and the route navigated to, if
    any; the [catch] is empty. *)
Definition handleSubmit (email username password fullName : jsstring)
  : Prog (World AuthState) (option (jsstring * string)) :=
  try_catch
    (register backend email username password fullName ;;;
     pure (Some (lit "Account created successfully! Please login.",
                 "/login"%string)))
    (fun _ => pure None).

End Handlers.

End RegisterPage.

(* ===================================================================== *)
(** ** More samples *)
(* ===================================================================== *)

Module MoreSamples.
Import ApiMore.

(** A backend that accepts everything. *)
Definition willing : Backend :=
  mkBackend (fun _ _ => Resolved (BareUser Samples.alice))
    (fun _ _ => Resolved (JArr [])) (fun _ _ => Resolved JNull)
    (fun _ _ => Resolved Samples.indexed_report)
    (fun _ _ =>
       Resolved (DocArray [Samples.indexed_report; Samples.failed_report]))
    (fun _ _ => Resolved JNull).

(** A backend that rejects everything. *)
Definition unwilling (detail : option jsstring) : Backend :=
  mkBackend (fun _ _ => Rejected detail) (fun _ _ => Rejected detail)
    (fun _ _ => Rejected detail) (fun _ _ => Rejected detail)
    (fun _ _ => Rejected detail) (fun _ _ => Rejected detail).

(** A backend that registers with a token. *)
Definition registering_with_token : Backend :=
  mkBackend
    (fun _ _ => Resolved (TokenAndUser 116 (lit "ok") (Some Samples.alice)))
    (fun _ _ => Rejected None) (fun _ _ => Rejected None)
    (fun _ _ => Rejected None) (fun _ _ => Rejected None)
    (fun _ _ => Rejected None).

(** A backend that takes the first upload and rejects the following. *)
Definition one_upload_only : Backend :=
  mkBackend (fun _ _ => Rejected None) (fun _ _ => Rejected None)
    (fun _ _ => Rejected None)
    (fun sent _ =>
       match sent with
       | [] => Resolved Samples.indexed_report
       | _ => Rejected (Some (lit "Too large"))
       end)
    (fun _ _ => Rejected None) (fun _ _ => Rejected None).

(** A server whose login answers with a token and no user. *)
Definition login_without_user (me : Reply User) : Server :=
  mkServer (fun _ _ => Rejected None)
    (fun _ _ => Resolved (mkLoginData (lit "tok") None))
    (fun _ _ => me) (fun _ _ => Rejected None).

(** A server whose login answers with a token and the user. *)
Definition login_with_user : Server :=
  mkServer (fun _ _ => Rejected None)
    (fun _ _ => Resolved (mkLoginData (lit "tok") (Some Samples.alice)))
    (fun _ _ => Rejected None) (fun _ _ => Rejected None).

Definition page_world (docs : list Documents.Document)
  : World DocumentsPage.PageState :=
  mkWorld (DocumentsPage.mkPage docs false false false [])
    Samples.fresh_browser.

Definition three_files : list File :=
  [mkFile (lit "a.txt"); mkFile (lit "b.txt"); mkFile (lit "c.txt")].

End MoreSamples.

(* ===================================================================== *)
(** * Properties *)
(* ===================================================================== *)

(** Unfolding a handler down to the world it leaves. *)
Ltac run_prog :=
  unfold bind, get, pure, throw, modify, try_catch, try_finally, lift_result,
    send, with_browser, localStorage_getItem, localStorage_setItem,
    localStorage_removeItem, console_error in *;
  cbn.

(** ** The chat handler *)

Section ChatFacts.
Import ChatInterface.
Variable server : Server.

(** The world after an accepted send whose query was rejected. *)
Lemma handleSendMessage_rejected_world (w : World ChatState)
    (detail : option jsstring) :
  send_blocked (comp w) = false ->
  on_chat_query server (network (browser w))
    (chat_query_request (browser w) (trim (input (comp w))) (7 # 10) true)
  = Rejected detail ->
  handleSendMessage server w =
    (Returned tt,
     mkWorld
       (mkChat
          (messages (comp w)
             ++ [user_message (trim (input (comp w))); failure_message])
          [] false)
       (mkBrowser (localStorage (browser w))
          (network (browser w)
             ++ [chat_query_request (browser w) (trim (input (comp w)))
                   (7 # 10) true])
          (console (browser w)
             ++ [("Error sending message:"%string, AxiosError detail)]))).
Proof.
  intros Hgo Hrej.
  unfold handleSendMessage, query_and_show, show_failure, chatAPI_query,
    setMessages, setMessagesWith, show_answer, setInput, setLoading,
    with_comp.
  run_prog. rewrite Hgo. cbn.
  unfold chat_query_request in Hrej. rewrite Hrej. cbn.
  by rewrite <- app_assoc.
Qed.


(** An accepted send issues exactly one request, the chat query, however
    the server answers. *)
Lemma handleSendMessage_sends_one_query (w : World ChatState) :
  send_blocked (comp w) = false ->
  network (browser (handleSendMessage server w).2) =
    network (browser w)
      ++ [chat_query_request (browser w) (trim (input (comp w)))
            (7 # 10) true].
Proof.
  intros Hgo.
  unfold handleSendMessage, query_and_show, show_failure, chatAPI_query,
    setMessages, setMessagesWith, show_answer, setInput, setLoading,
    with_comp.
  run_prog. rewrite Hgo. cbn.
  unfold chat_query_request.
  destruct (on_chat_query server _ _) as [data|detail]; cbn; [|done].
  destruct (get_prop data "response") as [e|r]; cbn; [done|].
  by destruct (get_prop data "sources") as [e|s].
Qed.

(** C3. When the chat query is rejected, the handler does not throw: it
    returns, the message list is the old one followed by the user's own
    message and an assistant message carrying the fixed failure text, and
    the loading flag is false again. *)
Theorem rejected_query_shows_failure_message (w : World ChatState)
    (detail : option jsstring) :
  send_blocked (comp w) = false ->
  on_chat_query server (network (browser w))
    (chat_query_request (browser w) (trim (input (comp w))) (7 # 10) true)
  = Rejected detail ->
  exists w',
    handleSendMessage server w = (Returned tt, w')
    /\ messages (comp w') =
         messages (comp w)
           ++ [mkMessage user (JStr (trim (input (comp w)))) None;
               mkMessage assistant (JStr failure_text) None]
    /\ loading (comp w') = false.
Proof.
  intros Hgo Hrej.
  eexists. split.
  - by apply handleSendMessage_rejected_world with (detail := detail).
  - done.
Qed.

(** C8. When the trimmed input is empty or a query is in flight, the
    handler returns at once and leaves the whole world as it was: no
    request goes out, and messages, input and loading keep their values. *)
Theorem blocked_send_changes_nothing (w : World ChatState) :
  trim (input (comp w)) = [] \/ loading (comp w) = true ->
  handleSendMessage server w = (Returned tt, w).
Proof.
  intros Hblocked.
  assert (send_blocked (comp w) = true) as Hb.
  { unfold send_blocked.
    destruct Hblocked as [-> | ->]; [done | by rewrite orb_true_r]. }
  unfold handleSendMessage. run_prog. by rewrite Hb.
Qed.


End ChatFacts.

Lemma rejected_query_shows_failure_message_witness :
  exists w',
    ChatInterface.handleSendMessage (Samples.rejecting None)
      (Samples.chat_world "  hello  " false) = (Returned tt, w')
    /\ ChatInterface.messages (comp w') =
         [] ++ [ChatInterface.mkMessage ChatInterface.user
                  (JStr (lit "hello")) None;
                ChatInterface.mkMessage ChatInterface.assistant
                  (JStr ChatInterface.failure_text) None]
    /\ ChatInterface.loading (comp w') = false.
Proof.
  apply (rejected_query_shows_failure_message (Samples.rejecting None)
           (Samples.chat_world "  hello  " false) None);
    reflexivity.
Defined.

Lemma blocked_send_changes_nothing_witness :
  ChatInterface.handleSendMessage (Samples.answering JNull)
    (Samples.chat_world "   " false)
  = (Returned tt, Samples.chat_world "   " false).
Proof.
  apply (blocked_send_changes_nothing (Samples.answering JNull)
           (Samples.chat_world "   " false)).
  left. reflexivity.
Defined.



(** ** The document page *)

Section DocumentFacts.
Import Documents.

Lemma reindex_guard_spec (status : string) :
  reindex_guard status = true <-> status = "failed"%string.
Proof. unfold reindex_guard. apply String.eqb_eq. Qed.

(** C2, as the code has it. The page puts no bound on the status: it shows
    the status string of a record as it came in, whatever it is.  Exactly
    five names get an icon of their own, completed and indexed the check
    mark, pending and processing the pulsing clock, failed the alert; any
    other string gets the fallback clock. *)
Theorem status_is_rendered_as_received (status : string) :
  (render_status status).2 = status
  /\ ((render_status status).1 = CheckCircle <->
      status = "completed"%string \/ status = "indexed"%string)
  /\ ((render_status status).1 = ClockPulse <->
      status = "pending"%string \/ status = "processing"%string)
  /\ ((render_status status).1 = AlertCircle <-> status = "failed"%string)
  /\ ((render_status status).1 = ClockStill <->
      status ∉ ["completed"; "indexed"; "pending"; "processing";
                "failed"]%string).
Proof.
  unfold render_status, getStatusIcon. cbn [fst snd].
  rewrite !elem_of_cons, elem_of_nil.
  destruct (String.eqb_spec status "completed") as [->|H1];
    [repeat split; try discriminate; intuition discriminate|].
  destruct (String.eqb_spec status "indexed") as [->|H2];
    [repeat split; try discriminate; intuition discriminate|].
  destruct (String.eqb_spec status "pending") as [->|H3];
    [repeat split; try discriminate; intuition discriminate|].
  destruct (String.eqb_spec status "processing") as [->|H4];
    [repeat split; try discriminate; intuition discriminate|].
  destruct (String.eqb_spec status "failed") as [->|H5];
    [repeat split; try discriminate; intuition discriminate|].
  repeat split; try discriminate; intuition congruence.
Qed.

(** C4, as the code has it. The page offers the reindex action exactly for
    the documents whose status is failed; the request it then sends names
    the document by id alone, with an empty body. *)
Theorem reindex_offered_only_when_failed (doc : Document) :
  (row_reindex (render_row doc) = true <-> processing_status doc = failed)
  /\ (forall status : string,
        reindex_guard status = true <-> status = "failed"%string)
  /\ (forall (St : Type) (server : Server) (w : World St) (i : Z),
        network (browser (documentAPI_reindex (St := St) server i w).2)
        = network (browser w) ++ [reindex_request (browser w) i]
        /\ body (reindex_request (browser w) i) = Some []).
Proof.
  split; [|split].
  - destruct doc as [i f sz st n e c]. cbn.
    destruct st; cbn; split; (done || discriminate).
  - apply reindex_guard_spec.
  - intros St server w i. split; [|done].
    unfold documentAPI_reindex, reindex_request. run_prog.
    by destruct (on_reindex server _ _).
Qed.

End DocumentFacts.

(** C2, as stated, fails: an indexed document reaches the page with the
    status completed, which is none of pending, processing, indexed and
    failed, and which the page draws with the check mark of its own. *)
Lemma completed_status_outside_spec_set :
  (Documents.status_name (Documents.processing_status Samples.indexed_report)
     ∉ Documents.spec_statuses)
  /\ Documents.render_status
       (Documents.status_name
          (Documents.processing_status Samples.indexed_report))
     = (Documents.CheckCircle, "completed"%string).
Proof.
  split; [|reflexivity].
  cbn. unfold Documents.spec_statuses.
  rewrite !elem_of_cons, elem_of_nil.
  intros [H | [H | [H | [H | []]]]]; discriminate H.
Qed.

(** C4, as stated, fails: the precondition admits a document whose status
    is indexed, and the page offers no reindex action for it, whether the
    status reads indexed or, as the page types it, completed. *)
Lemma reindex_not_offered_for_indexed :
  Documents.spec_reindexable "indexed"
  /\ Documents.reindex_guard "indexed" = false
  /\ Documents.getStatusIcon
       (Documents.status_name
          (Documents.processing_status Samples.indexed_report))
     = Documents.getStatusIcon "indexed"
  /\ Documents.row_reindex (Documents.render_row Samples.indexed_report)
     = false.
Proof. repeat split. by right. Qed.

(** ** The auth store *)

Section StoreFacts.
Import Store.
Variable server : Server.

(** C9. When the login call is rejected, the action rethrows the error and
    leaves user, token and localStorage as they were; the only changes are
    the error field, now a non-empty message (the detail of the rejection,
    or Login failed), and isLoading, now false. *)
Theorem rejected_login_keeps_credentials (w : World AuthState)
    (uname pwd : jsstring) (detail : option jsstring) :
  on_login server (network (browser w))
    (login_request (browser w) uname pwd) = Rejected detail ->
  let message := detail_or (AxiosError detail) (lit "Login failed") in
  login server uname pwd w =
    (Thrown (AxiosError detail),
     mkWorld
       (mkAuth (user (comp w)) (token (comp w)) false (Some message))
       (after_request (browser w) (login_request (browser w) uname pwd)))
  /\ truthy_str message = true
  /\ localStorage
       (after_request (browser w) (login_request (browser w) uname pwd))
     = localStorage (browser w).
Proof.
  intros Hrej message. split; [|split].
  - unfold login, authAPI_login, set. run_prog.
    unfold login_request in Hrej. rewrite Hrej. by cbn.
  - subst message. cbn.
    destruct detail as [d|]; [|done].
    by destruct (truthy_str d) eqn:Hd.
  - done.
Qed.

(** C10. [checkAuth] in its three cases: with no stored token (or an empty
    one) it returns and the world is untouched; with a stored token that
    [/auth/me] accepts, user and token are both set; with a stored token
    that [/auth/me] rejects, the stored token is removed and user and token
    are both cleared.  In no case does the action throw. *)
Theorem checkAuth_keeps_store_consistent (w : World AuthState) :
  let stored := localStorage (browser w) !! "access_token"%string in
  let req := me_request (browser w) in
  (truthy_opt stored = false -> checkAuth server w = (Returned tt, w))
  /\ (forall u : User,
        truthy_opt stored = true ->
        on_me server (network (browser w)) req = Resolved u ->
        checkAuth server w =
          (Returned tt,
           mkWorld
             (mkAuth (Some u) stored (isLoading (comp w)) (error (comp w)))
             (after_request (browser w) req)))
  /\ (forall detail : option jsstring,
        truthy_opt stored = true ->
        on_me server (network (browser w)) req = Rejected detail ->
        checkAuth server w =
          (Returned tt,
           mkWorld
             (mkAuth None None (isLoading (comp w)) (error (comp w)))
             (mkBrowser (delete "access_token"%string (localStorage (browser w)))
                (network (browser w) ++ [req]) (console (browser w))))).
Proof.
  intros stored req. subst stored req.
  split; [|split].
  - intros Hnone. unfold checkAuth. run_prog. by rewrite Hnone.
  - intros u Hsome Hok. unfold checkAuth, authAPI_getMe, set. run_prog.
    rewrite Hsome. cbn. unfold me_request in Hok. by rewrite Hok.
  - intros detail Hsome Hrej.
    unfold checkAuth, authAPI_getMe, authAPI_logout, set. run_prog.
    rewrite Hsome. cbn. unfold me_request in Hrej. by rewrite Hrej.
Qed.

End StoreFacts.

Lemma rejected_login_keeps_credentials_witness :
  let w := Samples.auth_world (Samples.browser_with_token "old") in
  exists w',
    Store.login (Samples.rejecting (Some (lit "Incorrect password")))
      (lit "alice") (lit "wrong") w
    = (Thrown (AxiosError (Some (lit "Incorrect password"))), w')
    /\ Store.user (comp w') = None
    /\ Store.token (comp w') = Some (lit "old")
    /\ Store.error (comp w') = Some (lit "Incorrect password")
    /\ Store.isLoading (comp w') = false
    /\ localStorage (browser w') !! "access_token"%string = Some (lit "old").
Proof.
  intros w. eexists. split.
  - apply (rejected_login_keeps_credentials
             (Samples.rejecting (Some (lit "Incorrect password"))) w
             (lit "alice") (lit "wrong") (Some (lit "Incorrect password"))).
    reflexivity.
  - repeat split.
Defined.

Lemma checkAuth_keeps_store_consistent_witness :
  Store.checkAuth Samples.knowing_alice
    (Samples.auth_world Samples.fresh_browser)
  = (Returned tt, Samples.auth_world Samples.fresh_browser)
  /\ (exists w',
        Store.checkAuth Samples.knowing_alice
          (Samples.auth_world (Samples.browser_with_token "tok"))
        = (Returned tt, w')
        /\ Store.user (comp w') = Some Samples.alice
        /\ Store.token (comp w') = Some (lit "tok"))
  /\ (exists w',
        Store.checkAuth (Samples.rejecting None)
          (Samples.auth_world (Samples.browser_with_token "tok"))
        = (Returned tt, w')
        /\ Store.user (comp w') = None
        /\ Store.token (comp w') = None
        /\ localStorage (browser w') !! "access_token"%string = None).
Proof.
  split; [|split].
  - apply (checkAuth_keeps_store_consistent Samples.knowing_alice
             (Samples.auth_world Samples.fresh_browser)).
    reflexivity.
  - eexists. split.
    + apply (checkAuth_keeps_store_consistent Samples.knowing_alice
               (Samples.auth_world (Samples.browser_with_token "tok")));
        reflexivity.
    + split; reflexivity.
  - eexists. split.
    + apply (checkAuth_keeps_store_consistent (Samples.rejecting None)
               (Samples.auth_world (Samples.browser_with_token "tok"))
             ) with (detail := None); reflexivity.
    + repeat split.
Defined.

(** ** The chunker *)

Section ChunkerFacts.
Import Chunker.
Context {A : Type}.
Implicit Types (txt : list A) (size k overlap : nat).

Lemma slide_nil size k : slide size (S k) (@nil A) = [].
Proof. by simp slide. Qed.

Lemma slide_cons size k (c : A) rest :
  slide size (S k) (c :: rest)
  = take size (c :: rest) :: slide size (S k) (drop (S k) (c :: rest)).
Proof. by simp slide. Qed.

(** While the text is not exhausted the window yields one more chunk. *)
Lemma slide_step size k txt :
  0 < length txt ->
  slide size (S k) txt = take size txt :: slide size (S k) (drop (S k) txt).
Proof.
  destruct txt as [|c rest]; cbn [length]; [lia|].
  intros _. apply slide_cons.
Qed.

Lemma slide_done size k txt :
  length txt = 0 -> slide size (S k) txt = [].
Proof. destruct txt; [intros _; apply slide_nil | discriminate]. Qed.

(** What the chunks after the first contribute once their overlaps are
    dropped: the text from [overlap] on. *)
Lemma concat_drop_slide size k overlap :
  size = overlap + S k ->
  forall n txt,
    length txt <= n ->
    concat (drop overlap <$> slide size (S k) txt) = drop overlap txt.
Proof.
  intros Hsize n. induction n as [|n IH]; intros txt Hlen.
  - destruct txt; [|cbn in Hlen; lia].
    rewrite slide_nil. by rewrite drop_nil.
  - destruct txt as [|c rest].
    { rewrite slide_nil. by rewrite drop_nil. }
    rewrite slide_cons. rewrite fmap_cons. cbn [concat].
    rewrite IH by (rewrite length_drop; cbn in *; lia).
    rewrite drop_drop.
    rewrite <- (take_drop size (c :: rest)) at 3.
    rewrite drop_app. f_equal.
    destruct (decide (size <= length (c :: rest))) as [Hle|Hgt].
    + rewrite length_take_le by done.
      replace (overlap - size) with 0 by lia.
      rewrite drop_0. f_equal. lia.
    + rewrite !(drop_ge (c :: rest)) by lia.
      by rewrite drop_nil.
Qed.

Lemma join_slide size k overlap txt :
  size = overlap + S k ->
  join_without_overlaps overlap (slide size (S k) txt) = txt.
Proof.
  intros Hsize. destruct txt as [|c rest].
  { by rewrite slide_nil. }
  rewrite slide_cons. cbn [join_without_overlaps].
  rewrite (concat_drop_slide size k overlap Hsize (length rest))
    by (rewrite length_drop; cbn; lia).
  rewrite drop_drop.
  replace (S k + overlap) with size by lia.
  apply take_drop.
Qed.

Lemma position_imap_mkChunk (l : list (list A)) :
  position <$> imap mkChunk l = seq 0 (length l).
Proof.
  rewrite fmap_imap.
  rewrite (imap_ext _ (fun j _ => j)) by done.
  rewrite (imap_seq_0 l (fun j => j)).
  apply list_fmap_id.
Qed.

Lemma text_imap_mkChunk (l : list (list A)) :
  text <$> imap mkChunk l = l.
Proof.
  rewrite fmap_imap.
  rewrite (imap_ext _ (const (fun x => x))) by done.
  rewrite imap_const. apply list_fmap_id.
Qed.

(** A 1200-character text under 512/50 falls into three windows. *)
Lemma slide_1200 txt :
  length txt = 1200 ->
  slide 512 462 txt
  = [take 512 txt; take 512 (drop 462 txt); drop 924 txt].
Proof.
  intros Hlen.
  rewrite slide_step by lia.
  rewrite slide_step by (rewrite length_drop; lia).
  rewrite slide_step by (rewrite !length_drop; lia).
  rewrite slide_done by (rewrite !length_drop; lia).
  rewrite !drop_drop. cbn [Nat.add].
  do 2 f_equal. f_equal.
  apply take_ge. rewrite length_drop. lia.
Qed.

(** C5. For a valid configuration the chunker returns a result for every
    text; the result is a function of its inputs; the positions of the
    chunks are 0, 1, 2, ... in order; the chunk texts, each after the first
    without its first [overlap] characters, concatenate to the text; and a
    text of 1200 characters under 512/50 gives three chunks, at positions
    0, 1 and 2. *)
Theorem split_is_deterministic_contiguous_and_lossless
    txt (chunk_size overlap : nat) :
  overlap < chunk_size ->
  exists chunks : list (Chunk A),
    split txt chunk_size overlap = Some chunks
    /\ (forall txt' size' overlap',
          txt' = txt -> size' = chunk_size -> overlap' = overlap ->
          split txt' size' overlap' = Some chunks)
    /\ position <$> chunks = seq 0 (length chunks)
    /\ join_without_overlaps overlap (text <$> chunks) = txt
    /\ (length txt = 1200 -> chunk_size = 512 -> overlap = 50 ->
        length chunks = 3 /\ position <$> chunks = [0; 1; 2]).
Proof.
  intros Hvalid. unfold split.
  destruct (decide (overlap < chunk_size)) as [_|]; [|done].
  eexists. split; [done|].
  split; [intros ? ? ? -> -> ->; by case_decide|].
  split; [by rewrite position_imap_mkChunk, length_imap|].
  split.
  - rewrite text_imap_mkChunk.
    destruct (chunk_size - overlap) as [|k] eqn:Hstep; [lia|].
    apply join_slide. lia.
  - intros Hlen -> ->. cbn [Nat.sub].
    rewrite position_imap_mkChunk, length_imap.
    change (512 - 50) with 462.
    by rewrite (slide_1200 txt Hlen).
Qed.

End ChunkerFacts.

Lemma split_is_deterministic_contiguous_and_lossless_witness :
  exists chunks : list (Chunker.Chunk nat),
    Chunker.split (repeat 0 1200) 512 50 = Some chunks
    /\ length chunks = 3
    /\ Chunker.position <$> chunks = [0; 1; 2]
    /\ Chunker.join_without_overlaps 50 (Chunker.text <$> chunks)
       = repeat 0 1200.
Proof.
  destruct (split_is_deterministic_contiguous_and_lossless
              (repeat 0 1200) 512 50)
    as (chunks & Hsplit & _ & _ & Hjoin & Hthree); [lia|].
  destruct Hthree as [Hlen Hpos]; [reflexivity..|].
  exists chunks. auto.
Defined.

(** The chunker on a short text: windows of 5 advancing by 3. *)
Example split_13_by_5_overlap_2 :
  (fun c => (Chunker.position c, Chunker.text c))
    <$> default [] (Chunker.split (seq 0 13) 5 2)
  = [(0, [0; 1; 2; 3; 4]); (1, [3; 4; 5; 6; 7]); (2, [6; 7; 8; 9; 10]);
     (3, [9; 10; 11; 12]); (4, [12])].
Proof. reflexivity. Qed.

(** ** Retrieval *)

Section RetrievalFacts.
Import Retrieval.
Variable similarity : list Q -> list Q -> Q.
Implicit Types (h : Hit) (hits : list Hit) (budget : nat).

Lemma score_desc_total : Total score_desc.
Proof.
  intros h1 h2. unfold score_desc.
  destruct (Qlt_le_dec (score h1) (score h2)) as [Hlt|Hle].
  - right. by apply Qlt_le_weak.
  - by left.
Qed.

Lemma score_desc_trans : Transitive score_desc.
Proof.
  intros h1 h2 h3 H12 H23. unfold score_desc in *.
  by apply Qle_trans with (score h2).
Qed.

(** *** The index query *)

Lemma query_length_top_k index ns qv k min :
  length (query similarity index ns qv k min) <= k.
Proof. unfold query. rewrite length_take. lia. Qed.

Lemma query_length_qualifying index ns qv k min :
  length (query similarity index ns qv k min)
  <= length (qualifying min
               (scored similarity (default ∅ (index !! ns)) qv)).
Proof.
  unfold query. rewrite length_take.
  rewrite (Permutation_length (merge_sort_Permutation score_desc _)). lia.
Qed.

Lemma query_elem index ns qv k min h :
  h ∈ query similarity index ns qv k min ->
  (min <= score h)%Q
  /\ h ∈ scored similarity (default ∅ (index !! ns)) qv.
Proof.
  unfold query, qualifying. intros Hin.
  apply subseteq_take in Hin.
  rewrite merge_sort_Permutation in Hin.
  by apply list_elem_of_filter in Hin.
Qed.

Lemma query_sorted index ns qv k min :
  StronglySorted score_desc (query similarity index ns qv k min).
Proof.
  unfold query.
  set (sorted := merge_sort score_desc _).
  assert (StronglySorted score_desc sorted) as Hs
    by apply (@StronglySorted_merge_sort _ score_desc _
                score_desc_trans score_desc_total).
  rewrite <- (take_drop k sorted) in Hs.
  by apply StronglySorted_app_1_l in Hs.
Qed.

Lemma scored_elem (records : gmap string VectorRecord) qv h :
  h ∈ scored similarity records qv ->
  exists r, records !! vector_id h = Some r
            /\ score h = similarity qv (embedding r)
            /\ hit_metadata h = metadata r.
Proof.
  unfold scored. intros Hin.
  apply list_elem_of_fmap in Hin as ([vid r] & -> & Hin).
  apply elem_of_map_to_list in Hin. by exists r.
Qed.

(** *** The context selection *)

Lemma fill_prefix budget hits : fill budget hits `prefix_of` hits.
Proof.
  revert budget. induction hits as [|h rest IH]; intros budget; cbn.
  - done.
  - case_match; [|apply prefix_nil].
    by apply prefix_cons.
Qed.

Lemma select_context_length budget hits :
  length (select_context budget hits) <= length hits.
Proof.
  destruct hits as [|h rest]; [done|].
  unfold select_context. case_match.
  - cbn. lia.
  - apply prefix_length, fill_prefix.
Qed.

Lemma select_context_origin budget hits h :
  h ∈ select_context budget hits ->
  exists h0, h0 ∈ hits /\ same_origin h h0.
Proof.
  destruct hits as [|h1 rest]; [by intros ?%elem_of_nil|].
  unfold select_context. case_match.
  - intros ->%list_elem_of_singleton.
    exists h1. split; [apply list_elem_of_here|done].
  - intros Hin. exists h. split; [|done].
    destruct (fill_prefix budget (h1 :: rest)) as [tail Htail].
    rewrite Htail. apply elem_of_app. by left.
Qed.

Lemma select_context_sorted budget hits :
  StronglySorted score_desc hits ->
  StronglySorted score_desc (select_context budget hits).
Proof.
  intros Hs. destruct hits as [|h1 rest]; [done|].
  unfold select_context. case_match.
  - repeat constructor.
  - destruct (fill_prefix budget (h1 :: rest)) as [tail Htail].
    rewrite Htail in Hs. by apply StronglySorted_app_1_l in Hs.
Qed.

Variable embed : string -> list Q.

(** C6. The sources returned for a query are at most top-K many, each with
    a relevance score of at least the configured minimum, in descending
    order of score; they are never more than the records of the asker's
    namespace that meet the minimum, and each of them is such a record,
    carrying the score the index gave it. *)
Theorem retrieved_sources_bounded_thresholded_sorted (cfg : Config)
    (index : gmap string (gmap string VectorRecord))
    (owner_id query_text : string) :
  let rs := retrieved_sources similarity embed cfg index owner_id query_text in
  let records := default ∅ (index !! owner_id) in
  let qv := embed query_text in
  length rs <= top_k cfg
  /\ Forall (fun s => (min_score cfg <= relevance_score s)%Q) rs
  /\ StronglySorted relevance_desc rs
  /\ length rs
     <= length (qualifying (min_score cfg) (scored similarity records qv))
  /\ Forall (fun s =>
               exists vid r,
                 records !! vid = Some r
                 /\ relevance_score s = similarity qv (embedding r)
                 /\ src_document_id s = document_id (metadata r)
                 /\ src_filename s = filename (metadata r)) rs.
Proof.
  intros rs records qv. subst rs. unfold retrieved_sources.
  set (hits := query similarity index owner_id (embed query_text)
                 (top_k cfg) (min_score cfg)).
  repeat split.
  - rewrite length_fmap.
    etrans; [apply select_context_length|apply query_length_top_k].
  - apply Forall_fmap, Forall_forall. intros h Hin. cbn.
    apply select_context_origin in Hin as (h0 & Hin0 & _ & -> & _).
    by apply query_elem in Hin0 as [? _].
  - eapply StronglySorted_fmap with (R1 := score_desc); [done|].
    apply select_context_sorted, query_sorted.
  - rewrite length_fmap.
    etrans; [apply select_context_length|apply query_length_qualifying].
  - apply Forall_fmap, Forall_forall. intros h Hin. cbn.
    apply select_context_origin in Hin as (h0 & Hin0 & Hvid & -> & -> & ->).
    apply query_elem in Hin0 as [_ Hin0].
    apply scored_elem in Hin0 as (r & Hr & -> & ->).
    by exists (vector_id h0), r.
Qed.

End RetrievalFacts.

(** The pipeline on a small index: top-3 at minimum 1/2 for owner [u1]
    finds three of the four vectors, best first; a context budget of 21
    characters keeps the first two; the other owner's vector never shows. *)
Example retrieved_sources_small_index :
  let cfg := Retrieval.mkConfig 3 (1 # 2) 21 in
  (fun s => (Retrieval.src_filename s, Retrieval.src_chunk_text s,
             Retrieval.relevance_score s))
    <$> Retrieval.retrieved_sources Samples.first_coordinate (fun _ => [])
          cfg Samples.small_index "u1" "what is beta?"
  = [("a.txt", "beta", 9 # 10); ("b.txt", "delta", 7 # 10)]%string.
Proof. vm_compute. reflexivity. Qed.

(** ** Trimming *)

Section TrimFacts.
Implicit Types (s t : jsstring) (c : N).

Lemma trimStart_head s c :
  head (trimStart s) = Some c -> is_white_space c = false.
Proof.
  induction s as [|a s IH]; cbn; [done|].
  destruct (is_white_space a) eqn:Ha; [done|].
  cbn. by intros [= <-].
Qed.

Lemma trimStart_fixed s :
  (forall c, head s = Some c -> is_white_space c = false) ->
  trimStart s = s.
Proof.
  destruct s as [|a s]; cbn; [done|].
  intros H. by rewrite (H a eq_refl).
Qed.

Lemma trimStart_suffix s : exists p, s = p ++ trimStart s.
Proof.
  induction s as [|a s [p IH]]; cbn.
  - by exists [].
  - destruct (is_white_space a).
    + exists (a :: p). cbn. by f_equal.
    + by exists [].
Qed.

Lemma last_rev_head (l : list N) : last (rev l) = head l.
Proof. destruct l as [|a l]; cbn; [done|]. apply last_snoc. Qed.

Lemma trimEnd_last t c :
  last (trimEnd t) = Some c -> is_white_space c = false.
Proof.
  unfold trimEnd. rewrite last_rev_head. apply trimStart_head.
Qed.

Lemma trimEnd_prefix t : exists q, t = trimEnd t ++ q.
Proof.
  unfold trimEnd.
  destruct (trimStart_suffix (rev t)) as [p Hp].
  exists (rev p).
  rewrite <- List.rev_app_distr, <- Hp.
  symmetry. apply List.rev_involutive.
Qed.

Lemma trimEnd_fixed t :
  (forall c, last t = Some c -> is_white_space c = false) ->
  trimEnd t = t.
Proof.
  intros H. unfold trimEnd.
  rewrite trimStart_fixed; [apply List.rev_involutive|].
  intros c Hc. apply H.
  rewrite <- (List.rev_involutive t). by rewrite last_rev_head.
Qed.

Lemma trim_head s c : head (trim s) = Some c -> is_white_space c = false.
Proof.
  unfold trim. intros Hc.
  destruct (trimEnd_prefix (trimStart s)) as [q Hq].
  apply (trimStart_head s). rewrite Hq.
  destruct (trimEnd (trimStart s)); [done|]. exact Hc.
Qed.

Lemma trim_last s c : last (trim s) = Some c -> is_white_space c = false.
Proof. apply trimEnd_last. Qed.

Lemma trim_trim s : trim (trim s) = trim s.
Proof.
  unfold trim at 1.
  rewrite (trimStart_fixed (trim s)) by apply trim_head.
  apply trimEnd_fixed, trim_last.
Qed.

End TrimFacts.

(** ** More on the chat handler *)

Section ChatMoreFacts.
Import ChatInterface ChatControls.
Variable server : Server.

Lemma handleSendMessage_blocked_world (w : World ChatState) :
  send_blocked (comp w) = true ->
  handleSendMessage server w = (Returned tt, w).
Proof. intros Hb. unfold handleSendMessage. run_prog. by rewrite Hb. Qed.

(** The shape of the world after any accepted send: after the user's
    message comes one assistant message, or none when the payload was
    [null] or [undefined]. *)
Lemma handleSendMessage_accepted_world (w : World ChatState) :
  send_blocked (comp w) = false ->
  let req := chat_query_request (browser w) (trim (input (comp w)))
               (7 # 10) true in
  let reply := on_chat_query server (network (browser w)) req in
  exists (tail : list Message) (b' : Browser),
    handleSendMessage server w =
      (Returned tt,
       mkWorld
         (mkChat
            (messages (comp w)
               ++ user_message (trim (input (comp w))) :: tail)
            [] false)
         b')
    /\ (tail = [] /\ (reply = Resolved JNull \/ reply = Resolved JUndefined)
        \/ (exists m, tail = [m] /\ role m = assistant)
           /\ reply <> Resolved JNull /\ reply <> Resolved JUndefined)
    /\ localStorage b' = localStorage (browser w)
    /\ network b' = network (browser w) ++ [req].
Proof.
  intros Hgo req reply. subst req reply.
  unfold handleSendMessage, query_and_show, show_failure, chatAPI_query,
    setMessages, setMessagesWith, show_answer, setInput, setLoading,
    with_comp.
  run_prog. rewrite Hgo. cbn. unfold chat_query_request.
  destruct (on_chat_query server _ _) as [data|detail]; cbn.
  - destruct data; cbn;
      try (eexists [_]; eexists; rewrite <- app_assoc; cbn;
           split; [reflexivity|]; split; [|done];
           right; split; [by eexists|done]).
    + exists []. eexists. split; [reflexivity|]. split; [|done]. left. auto.
    + exists []. eexists. split; [reflexivity|]. split; [|done]. left. auto.
  - eexists [_]. eexists. rewrite <- app_assoc. cbn.
    split; [reflexivity|]. split; [|done].
    right. split; [by eexists|done].
Qed.



(** The query that goes out is never blank: it has at least one code
    unit, no white space at either end, and trimming it again changes
    nothing. *)
Theorem sent_query_is_trimmed_and_not_blank (w : World ChatState) :
  send_blocked (comp w) = false ->
  exists (q : jsstring) (c1 c2 : N),
    network (browser (handleSendMessage server w).2) =
      network (browser w) ++ [chat_query_request (browser w) q (7 # 10) true]
    /\ head q = Some c1 /\ is_white_space c1 = false
    /\ last q = Some c2 /\ is_white_space c2 = false
    /\ trim q = q.
Proof.
  intros Hgo.
  pose proof (handleSendMessage_sends_one_query server w Hgo) as Hnet.
  unfold send_blocked in Hgo. apply orb_false_elim in Hgo as [Hne _].
  set (q := trim (input (comp w))) in *.
  destruct q as [|c1 q'] eqn:Hq; [done|].
  assert (is_Some (last (c1 :: q'))) as [c2 Hc2].
  { rewrite last_is_Some. done. }
  exists (c1 :: q'), c1, c2.
  split; [exact Hnet|].
  split; [done|].
  split; [apply (trim_head (input (comp w))); fold q; by rewrite Hq|].
  split; [done|].
  split; [apply (trim_last (input (comp w))); fold q; by rewrite Hq|].
  rewrite <- Hq. subst q. apply trim_trim.
Qed.




(** The submit button is disabled exactly when the handler would do
    nothing: a disabled button hides a no-op, an enabled one a send of
    exactly one request. *)
Theorem submit_button_matches_handler (w : World ChatState) :
  (submit_disabled (comp w) = true ->
   handleSendMessage server w = (Returned tt, w))
  /\ (submit_disabled (comp w) = false ->
      length (network (browser (handleSendMessage server w).2))
      = S (length (network (browser w)))).
Proof.
  assert (submit_disabled (comp w) = send_blocked (comp w)) as ->
    by apply orb_comm.
  split; intros Hb.
  - by apply handleSendMessage_blocked_world.
  - rewrite handleSendMessage_sends_one_query by done.
    rewrite length_app. cbn. lia.
Qed.

(** Only Enter without Shift submits: any other key leaves the world alone
    and is not prevented; Enter without Shift is prevented and does what
    the send handler does. *)
Theorem handleKeyDown_submits_on_plain_enter (e : KeyboardEvent)
    (w : World ChatState) :
  (key e <> "Enter"%string \/ shiftKey e = true ->
   handleKeyDown server e w = (Returned false, w))
  /\ (key e = "Enter"%string /\ shiftKey e = false ->
      handleKeyDown server e w
      = (Returned true, (handleSendMessage server w).2)).
Proof.
  unfold handleKeyDown. split.
  - intros [Hkey | Hshift].
    + apply String.eqb_neq in Hkey. by rewrite Hkey.
    + rewrite Hshift. by rewrite andb_false_r.
  - intros [Hkey Hshift]. rewrite Hkey, Hshift.
    change (String.eqb "Enter" "Enter" && negb false) with true.
    cbv iota. unfold bind.
    destruct (send_blocked (comp w)) eqn:Hgo.
    + by rewrite (handleSendMessage_blocked_world w Hgo).
    + destruct (handleSendMessage_accepted_world w Hgo)
        as (tail & b' & Heq & _).
      by rewrite Heq.
Qed.

(** Each suggestion, once clicked while nothing is loading, is sent word
    for word by the next submit. *)
Theorem clicked_suggestion_is_sent_verbatim (w : World ChatState)
    (suggestion : jsstring) :
  suggestion ∈ suggestions ->
  loading (comp w) = false ->
  let clicked := (click_suggestion suggestion w).2 in
  network (browser (handleSendMessage server clicked).2) =
    network (browser w)
      ++ [chat_query_request (browser w) suggestion (7 # 10) true].
Proof.
  intros Hin Hidle clicked.
  assert (trim suggestion = suggestion /\ truthy_str suggestion = true)
    as [Htrim Hne].
  { unfold suggestions in Hin.
    rewrite !elem_of_cons, elem_of_nil in Hin.
    destruct Hin as [-> | [-> | [-> | [-> | []]]]]; by vm_compute. }
  rewrite handleSendMessage_sends_one_query.
  - change (input (comp clicked)) with suggestion.
    change (browser clicked) with (browser w).
    by rewrite Htrim.
  - unfold send_blocked.
    change (input (comp clicked)) with suggestion.
    change (loading (comp clicked)) with (loading (comp w)).
    by rewrite Htrim, Hne, Hidle.
Qed.

End ChatMoreFacts.

(** ** The chat page *)

Section ChatPageFacts.
Import ChatInterface ChatPage.
Variable backend : ApiMore.Backend.

(** Clearing the history never throws and empties the conversation only
    when the server agreed: on a rejection the messages stay and the error
    is logged.  Input and loading are not touched, and one DELETE goes
    out. *)
Theorem handleClearHistory_clears_only_on_success (w : World ChatState) :
  let req := intercept (browser w) DELETE [Lit "/chat/history"] None in
  handleClearHistory backend w =
    match ApiMore.on_clear_history backend (network (browser w)) req with
    | Resolved _ =>
        (Returned tt,
         mkWorld (mkChat [] (input (comp w)) (loading (comp w)))
           (after_request (browser w) req))
    | Rejected detail =>
        (Returned tt,
         mkWorld (comp w)
           (mkBrowser (localStorage (browser w))
              (network (browser w) ++ [req])
              (console (browser w)
                 ++ [("Error clearing history:"%string,
                      AxiosError detail)])))
    end.
Proof.
  intros req. subst req.
  unfold handleClearHistory, ApiMore.chatAPI_clearHistory, setMessages,
    with_comp.
  run_prog.
  by destruct (ApiMore.on_clear_history backend _ _).
Qed.

End ChatPageFacts.

(** ** More on the auth store *)

Section StoreMoreFacts.
Import Store ApiMore StoreActions.
Variable server : Server.
Variable backend : Backend.

(** The browser once the token of a login has been stored and the login
    request logged. *)
Lemma login_resolved_world (w : World AuthState) (uname pwd : jsstring)
    (data : LoginData) :
  on_login server (network (browser w))
    (login_request (browser w) uname pwd) = Resolved data ->
  let tok := access_token data in
  let b1 := mkBrowser (<["access_token"%string := tok]>
                         (localStorage (browser w)))
              (network (browser w) ++ [login_request (browser w) uname pwd])
              (console (browser w)) in
  login server uname pwd w =
    match login_user data with
    | Some u =>
        (Returned tt, mkWorld (mkAuth (Some u) (Some tok) false None) b1)
    | None =>
        match on_me server (network b1) (me_request b1) with
        | Resolved u =>
            (Returned tt,
             mkWorld (mkAuth (Some u) (Some tok) false None)
               (after_request b1 (me_request b1)))
        | Rejected detail =>
            (Thrown (AxiosError detail),
             mkWorld
               (mkAuth (user (comp w)) (Some tok) false
                  (Some (detail_or (AxiosError detail) (lit "Login failed"))))
               (after_request b1 (me_request b1)))
        end
    end.
Proof.
  intros Hok tok b1. subst tok b1.
  unfold login, authAPI_login, authAPI_getMe, set. run_prog.
  unfold login_request in Hok. rewrite Hok. cbn.
  destruct (login_user data) as [u|]; cbn; [done|].
  unfold me_request, after_request. cbn.
  by destruct (on_me server _ _).
Qed.

(** A login the server accepts stores the token in localStorage and in the
    store, sets the user, and ends with isLoading off and no error.  The
    user comes from the login payload when it has one; otherwise from
    [/auth/me], asked with the token just stored as bearer. *)
Theorem accepted_login_stores_token_and_user (w : World AuthState)
    (uname pwd : jsstring) (data : LoginData) (u : User) :
  on_login server (network (browser w))
    (login_request (browser w) uname pwd) = Resolved data ->
  let tok := access_token data in
  let b1 := mkBrowser (<["access_token"%string := tok]>
                         (localStorage (browser w)))
              (network (browser w) ++ [login_request (browser w) uname pwd])
              (console (browser w)) in
  (login_user data = Some u ->
   login server uname pwd w =
     (Returned tt, mkWorld (mkAuth (Some u) (Some tok) false None) b1))
  /\ (login_user data = None ->
      on_me server (network b1) (me_request b1) = Resolved u ->
      login server uname pwd w =
        (Returned tt,
         mkWorld (mkAuth (Some u) (Some tok) false None)
           (after_request b1 (me_request b1)))
      /\ authorization (me_request b1) =
           (if truthy_str tok then Some (lit "Bearer " ++ tok) else None))
  /\ localStorage b1 !! "access_token"%string = Some tok.
Proof.
  intros Hok tok b1.
  pose proof (login_resolved_world w uname pwd data Hok) as Hlogin.
  cbn zeta in Hlogin. fold tok b1 in Hlogin.
  split; [|split].
  - intros Hu. by rewrite Hu in Hlogin.
  - intros Hu Hme. rewrite Hu, Hme in Hlogin. split; [done|].
    unfold me_request, intercept, b1. cbn.
    by rewrite lookup_insert_eq.
  - unfold b1. cbn. apply lookup_insert_eq.
Qed.

(** When the login is accepted but [/auth/me] is then rejected, the action
    rethrows and keeps the new token, in the store and in localStorage,
    though no user was set: the error is shown, isLoading is off. *)
Theorem login_with_rejected_profile_keeps_token (w : World AuthState)
    (uname pwd : jsstring) (data : LoginData) (detail : option jsstring) :
  on_login server (network (browser w))
    (login_request (browser w) uname pwd) = Resolved data ->
  login_user data = None ->
  let tok := access_token data in
  let b1 := mkBrowser (<["access_token"%string := tok]>
                         (localStorage (browser w)))
              (network (browser w) ++ [login_request (browser w) uname pwd])
              (console (browser w)) in
  on_me server (network b1) (me_request b1) = Rejected detail ->
  exists w',
    login server uname pwd w = (Thrown (AxiosError detail), w')
    /\ user (comp w') = user (comp w)
    /\ token (comp w') = Some tok
    /\ localStorage (browser w') !! "access_token"%string = Some tok
    /\ error (comp w')
       = Some (detail_or (AxiosError detail) (lit "Login failed"))
    /\ isLoading (comp w') = false.
Proof.
  intros Hok Hu tok b1 Hme.
  pose proof (login_resolved_world w uname pwd data Hok) as Hlogin.
  cbn zeta in Hlogin. fold tok b1 in Hlogin.
  rewrite Hu, Hme in Hlogin.
  eexists. split; [exact Hlogin|].
  cbn. repeat split. apply lookup_insert_eq.
Qed.

(** After a logout nothing of the session is left: user and token are
    cleared, localStorage has no token, a following [checkAuth] does
    nothing at all, and a request sent from that browser carries no
    Authorization header. *)
Theorem logout_ends_the_session (w : World AuthState) :
  let w' := (logout w).2 in
  logout w = (Returned tt, w')
  /\ user (comp w') = None
  /\ token (comp w') = None
  /\ localStorage (browser w') !! "access_token"%string = None
  /\ network (browser w') = network (browser w)
  /\ checkAuth server w' = (Returned tt, w')
  /\ (forall m u payload,
        authorization (intercept (browser w') m u payload) = None).
Proof.
  intros w'. subst w'.
  unfold logout, authAPI_logout, set. run_prog.
  repeat split.
  - apply lookup_delete_eq.
  - unfold checkAuth. run_prog. by rewrite lookup_delete_eq.
  - intros m u payload. unfold intercept. cbn. by rewrite lookup_delete_eq.
Qed.

(** The three ways a registration ends.  Rejected: the error is rethrown,
    user, token and localStorage stay, the error field gets a non-empty
    message.  Accepted with a token: the token goes to localStorage and to
    the store, with the user of the payload.  Accepted without one: the
    payload becomes the user, and token and localStorage stay. *)
Theorem register_outcomes (w : World AuthState)
    (mail uname pwd full : jsstring) :
  let req := intercept (browser w) POST [Lit "/auth/register"]
               (Some [("email"%string, JStr mail);
                      ("username"%string, JStr uname);
                      ("password"%string, JStr pwd);
                      ("full_name"%string, JStr full)]) in
  let b1 := after_request (browser w) req in
  let reply := on_register backend (network (browser w)) req in
  (forall detail,
     reply = Rejected detail ->
     register backend mail uname pwd full w =
       (Thrown (AxiosError detail),
        mkWorld
          (mkAuth (user (comp w)) (token (comp w)) false
             (Some (detail_or (AxiosError detail)
                      (lit "Registration failed"))))
          b1)
     /\ truthy_str (detail_or (AxiosError detail)
                      (lit "Registration failed")) = true)
  /\ (forall c rest u,
        reply = Resolved (TokenAndUser c rest u) ->
        register backend mail uname pwd full w =
          (Returned tt,
           mkWorld (mkAuth u (Some (c :: rest)) false None)
             (mkBrowser
                (<["access_token"%string := c :: rest]>
                   (localStorage (browser w)))
                (network b1) (console b1))))
  /\ (forall u,
        reply = Resolved (BareUser u) ->
        register backend mail uname pwd full w =
          (Returned tt,
           mkWorld (mkAuth (Some u) (token (comp w)) false None) b1)).
Proof.
  intros req b1 reply. subst req b1 reply.
  unfold register, authAPI_register, set, after_request.
  split; [|split].
  - intros detail Hrej. run_prog. rewrite Hrej. cbn. split; [done|].
    destruct detail as [d|]; [|done].
    by destruct (truthy_str d) eqn:Hd.
  - intros c rest u Hok. run_prog. by rewrite Hok.
  - intros u Hok. run_prog. by rewrite Hok.
Qed.

Lemma perform_keeps_token_mirror (a : Action) (w : World AuthState) :
  token_mirrors_storage w ->
  token_mirrors_storage (perform server backend a w).2.
Proof.
  unfold token_mirrors_storage. intros Hw.
  destruct a as [u p|e u p f| | |]; cbn [perform].
  - unfold login, authAPI_login, authAPI_getMe, set. run_prog.
    destruct (on_login server _ _) as [data|detail]; cbn; [|done].
    destruct (login_user data) as [usr|]; cbn.
    + by rewrite lookup_insert_eq.
    + destruct (on_me server _ _); cbn; by rewrite lookup_insert_eq.
  - unfold register, authAPI_register, set. run_prog.
    destruct (on_register backend _ _) as [[c rest usr|usr]|detail]; cbn;
      [by rewrite lookup_insert_eq|done..].
  - unfold logout, authAPI_logout, set. run_prog.
    by rewrite lookup_delete_eq.
  - unfold checkAuth, authAPI_getMe, authAPI_logout, set. run_prog.
    destruct (truthy_opt (localStorage (browser w) !! "access_token"%string))
      eqn:Hstored; cbn; [|done].
    destruct (on_me server _ _); cbn; [done|].
    by rewrite lookup_delete_eq.
  - done.
Qed.

Lemma checkAuth_with_nothing (w : World AuthState) :
  checkAuth_with server (pure tt) w = checkAuth server w.
Proof.
  unfold checkAuth_with, checkAuth_until_await, checkAuth_after_await,
    checkAuth, authAPI_getMe, authAPI_logout, set.
  run_prog.
  destruct (truthy_opt (localStorage (browser w) !! "access_token"%string));
    cbn; [|done].
  by destruct (on_me server _ _).
Qed.

(** When the store's actions run one after the other, each to its end, and
    login and register answer with payloads of their declared shape, the
    token in the store stays the one in localStorage.  The order matters:
    [checkAuth] is itself the two halves around its [await], and a logout
    that runs between them, with [/auth/me] then resolving, puts the token
    read before the [await] back into the store though localStorage has
    none any more. *)
Theorem store_token_mirrors_localStorage_when_sequential
    (actions : list Action) (w : World AuthState) :
  (token_mirrors_storage w ->
   token_mirrors_storage (perform_all server backend actions w))
  /\ checkAuth_with server (pure tt) w = checkAuth server w
  /\ (forall (t : jsstring) (u : User),
        localStorage (browser w) !! "access_token"%string = Some t ->
        truthy_str t = true ->
        on_me server (network (browser w)) (me_request (browser w))
          = Resolved u ->
        let w' := (checkAuth_with server logout w).2 in
        token (comp w') = Some t
        /\ user (comp w') = Some u
        /\ localStorage (browser w') !! "access_token"%string = None
        /\ ~ token_mirrors_storage w').
Proof.
  split; [|split].
  - revert w. induction actions as [|a rest IH]; intros w Hw; cbn; [done|].
    by apply IH, perform_keeps_token_mirror.
  - apply checkAuth_with_nothing.
  - intros t u Hstored Htruthy Hme.
    unfold token_mirrors_storage, checkAuth_with, checkAuth_until_await,
      checkAuth_after_await, logout, authAPI_getMe, authAPI_logout, set.
    run_prog. rewrite Hstored. cbn. rewrite Htruthy. cbn.
    unfold me_request in Hme. rewrite Hme. cbn.
    rewrite lookup_delete_eq. by repeat split.
Qed.

End StoreMoreFacts.

(** ** The document page's handlers *)

Section DocumentsPageFacts.
Import Documents ApiMore DocumentsPage.
Variable server : Server.
Variable backend : Backend.
Variable confirm : jsstring -> bool.

Ltac run_page :=
  unfold setDocuments, setLoading, setUploading, setDragActive, toast,
    with_page in *;
  run_prog; unfold with_browser, modify; cbn.

(** The world [loadDocuments] leaves, by the server's answer. *)
Lemma loadDocuments_world (w : World PageState) :
  let req := intercept (browser w) GET
               [Lit "/documents/?skip="; Num 0; Lit "&limit="; Num 50]
               None in
  let st := comp w in
  loadDocuments backend w =
    match on_list backend (network (browser w)) req with
    | Resolved payload =>
        (Returned tt,
         mkWorld
           (mkPage
              (match payload with DocArray docs => docs | NotAnArray => [] end)
              false (uploading st) (dragActive st) (toasts st))
           (after_request (browser w) req))
    | Rejected detail =>
        (Returned tt,
         mkWorld
           (mkPage [] false (uploading st) (dragActive st)
              (toasts st ++ [ToastError (lit "Failed to load documents")]))
           (mkBrowser (localStorage (browser w))
              (network (browser w) ++ [req])
              (console (browser w)
                 ++ [("Error loading documents:"%string,
                      AxiosError detail)])))
    end.
Proof.
  intros req st. subst req st.
  unfold loadDocuments, documentAPI_list. run_page.
  by destruct (on_list backend _ _).
Qed.

Lemma loadDocuments_returns (w : World PageState) :
  exists w', loadDocuments backend w = (Returned tt, w').
Proof.
  pose proof (loadDocuments_world w) as H. cbn zeta in H.
  rewrite H. destruct (on_list backend _ _); by eexists.
Qed.

(** Loading the list never throws and always ends with loading off.  The
    list becomes the array the server sent; a payload that is no array
    gives the empty list, and so does a rejection, which also raises an
    error toast: the list shown before is dropped either way. *)
Theorem loadDocuments_outcomes (w : World PageState) :
  let req := intercept (browser w) GET
               [Lit "/documents/?skip="; Num 0; Lit "&limit="; Num 50]
               None in
  let st := comp w in
  loadDocuments backend w =
    match on_list backend (network (browser w)) req with
    | Resolved payload =>
        (Returned tt,
         mkWorld
           (mkPage
              (match payload with DocArray docs => docs | NotAnArray => [] end)
              false (uploading st) (dragActive st) (toasts st))
           (after_request (browser w) req))
    | Rejected detail =>
        (Returned tt,
         mkWorld
           (mkPage [] false (uploading st) (dragActive st)
              (toasts st ++ [ToastError (lit "Failed to load documents")]))
           (mkBrowser (localStorage (browser w))
              (network (browser w) ++ [req])
              (console (browser w)
                 ++ [("Error loading documents:"%string,
                      AxiosError detail)])))
    end.
Proof. apply loadDocuments_world. Qed.

(** What the upload loop leaves.  [added] are the documents the server
    answered with, one for each file from the front, each the answer to
    that file's request after the requests before it; the loop goes on to
    the first file whose request is rejected, or to the end. *)
Lemma upload_each_trace (files : list File) (w : World PageState) :
  let req := upload_request (browser w) in
  let sent := network (browser w) in
  exists added : list Document,
    let k := length added in
    let r := upload_each backend files w in
    k <= length files
    /\ (forall j d, added !! j = Some d ->
          exists f, files !! j = Some f
                    /\ on_upload backend (sent ++ (req <$> take j files))
                         (req f) = Resolved d)
    /\ documents (comp r.2) = rev added ++ documents (comp w)
    /\ toasts (comp r.2)
       = toasts (comp w) ++ (uploaded_toast <$> take k files)
    /\ loading (comp r.2) = loading (comp w)
    /\ uploading (comp r.2) = uploading (comp w)
    /\ dragActive (comp r.2) = dragActive (comp w)
    /\ localStorage (browser r.2) = localStorage (browser w)
    /\ console (browser r.2) = console (browser w)
    /\ match files !! k with
       | None =>
           r.1 = Returned tt
           /\ network (browser r.2) = sent ++ (req <$> files)
       | Some f =>
           exists detail,
             on_upload backend (sent ++ (req <$> take k files)) (req f)
               = Rejected detail
             /\ r.1 = Thrown (AxiosError detail)
             /\ network (browser r.2) = sent ++ (req <$> take (S k) files)
       end.
Proof.
  revert w. induction files as [|file rest IH]; intros w req sent.
  - exists []. cbn. rewrite !app_nil_r. repeat split; done.
  - destruct (on_upload backend sent (req file)) as [data|detail] eqn:Hreply.
    + set (w1 := mkWorld
                   (mkPage (data :: documents (comp w)) (loading (comp w))
                      (uploading (comp w)) (dragActive (comp w))
                      (toasts (comp w) ++ [uploaded_toast file]))
                   (after_request (browser w) (req file))).
      assert (upload_each backend (file :: rest) w
              = upload_each backend rest w1) as Hstep.
      { cbn [upload_each]. unfold documentAPI_upload, bind at 1 2 3.
        unfold send at 1. cbn zeta.
        fold (upload_request (browser w) file). fold req. fold sent.
        rewrite Hreply. reflexivity. }
      destruct (IH w1)
        as (added & Hk & Hrep & Hd & Ht & Hl & Hu & Hdr & Hls & Hc & Hend).
      change (upload_request (browser w1)) with req in Hrep, Hend.
      change (network (browser w1)) with (sent ++ [req file]) in Hrep, Hend.
      exists (data :: added). rewrite Hstep. cbn [length].
      split; [lia|].
      split.
      { intros [|j] d Hj; cbn in Hj.
        - injection Hj as <-. exists file. cbn. rewrite app_nil_r. done.
        - destruct (Hrep j d Hj) as (f & Hf & Hok).
          exists f. split; [done|].
          cbn [take fmap list_fmap]. rewrite <- app_assoc in Hok. exact Hok. }
      split; [rewrite Hd; cbn; by rewrite <- app_assoc|].
      split; [rewrite Ht; cbn; by rewrite <- app_assoc|].
      repeat (split; [done|]).
      cbn [lookup list_lookup].
      change ((file :: rest) !! S (length added)) with (rest !! length added).
      destruct (rest !! length added) as [f|].
      * destruct Hend as (detail & Hrej & Hthrown & Hnet).
        exists detail. rewrite <- app_assoc in Hrej, Hnet.
        by repeat split.
      * destruct Hend as [Hret Hnet]. rewrite <- app_assoc in Hnet.
        by split.
    + exists []. cbn [length rev app take fmap list_fmap lookup list_lookup].
      assert (upload_each backend (file :: rest) w
              = (Thrown (AxiosError detail),
                 mkWorld (comp w) (after_request (browser w) (req file))))
        as ->.
      { cbn [upload_each]. unfold documentAPI_upload, bind at 1.
        unfold send at 1. cbn zeta.
        fold (upload_request (browser w) file). fold req. fold sent.
        rewrite Hreply. reflexivity. }
      cbn. rewrite !app_nil_r.
      split; [lia|].
      split; [intros j d Hj; by rewrite lookup_nil in Hj|].
      repeat (split; [done|]).
      exists detail. by repeat split.
Qed.

(** An upload never throws.  With no files it does nothing.  Otherwise it
    ends with uploading off, and it has sent the files in their order, one
    request each, up to the first one the server rejected: the document
    the server answered with for each file before that stands in front of
    the list, newest first, with one success toast per file in order; the
    files after the rejected one are never sent, and the rejection raises
    one error toast, after the success toasts, and one console entry. *)
Theorem handleUpload_stops_at_first_failure (files : option (list File))
    (w : World PageState) :
  (files = None \/ files = Some [] ->
   handleUpload backend files w = (Returned tt, w))
  /\ (forall fs, files = Some fs -> fs <> [] ->
      let req := upload_request (browser w) in
      let sent := network (browser w) in
      exists added : list Document,
        let k := length added in
        let r := handleUpload backend files w in
        r.1 = Returned tt
        /\ uploading (comp r.2) = false
        /\ k <= length fs
        /\ (forall j d, added !! j = Some d ->
              exists f, fs !! j = Some f
                        /\ on_upload backend (sent ++ (req <$> take j fs))
                             (req f) = Resolved d)
        /\ documents (comp r.2) = rev added ++ documents (comp w)
        /\ localStorage (browser r.2) = localStorage (browser w)
        /\ match fs !! k with
           | None =>
               network (browser r.2) = sent ++ (req <$> fs)
               /\ toasts (comp r.2)
                  = toasts (comp w) ++ (uploaded_toast <$> fs)
               /\ console (browser r.2) = console (browser w)
           | Some f =>
               exists detail,
                 on_upload backend (sent ++ (req <$> take k fs)) (req f)
                   = Rejected detail
                 /\ network (browser r.2) = sent ++ (req <$> take (S k) fs)
                 /\ toasts (comp r.2)
                    = toasts (comp w) ++ (uploaded_toast <$> take k fs)
                        ++ [ToastError
                              (Store.detail_or (AxiosError detail)
                                 (lit "Failed to upload document"))]
                 /\ console (browser r.2)
                    = console (browser w)
                        ++ [("Error uploading document:"%string,
                             AxiosError detail)]
           end).
Proof.
  split.
  - by intros [-> | ->].
  - intros fs -> Hne req sent.
    destruct fs as [|f fs']; [done|].
    set (w1 := mkWorld
                 (mkPage (documents (comp w)) (loading (comp w)) true
                    (dragActive (comp w)) (toasts (comp w)))
                 (browser w)).
    destruct (upload_each_trace (f :: fs') w1)
      as (added & Hk & Hrep & Hd & Ht & Hl & Hu & Hdr & Hls & Hc & Hend).
    change (upload_request (browser w1)) with req in Hrep, Hend.
    change (network (browser w1)) with sent in Hrep, Hend.
    exists added.
    unfold handleUpload.
    set (loop := upload_each backend (f :: fs')) in *. clearbody loop.
    unfold setUploading, toast, with_page, try_finally, try_catch, bind,
      console_error, with_browser, modify.
    cbn beta iota zeta. fold w1.
    destruct (loop w1) as [c w2] eqn:Hrun.
    cbn [fst snd] in Hd, Ht, Hl, Hu, Hdr, Hls, Hc, Hend.
    destruct ((f :: fs') !! length added) as [f1|] eqn:Hlook.
    + destruct Hend as (detail & Hrej & -> & Hnet).
      cbn [fst snd comp browser documents uploading toasts network
           localStorage console].
      repeat (split; [done|]).
      exists detail. rewrite Ht, Hc, <- app_assoc. by repeat split.
    + destruct Hend as [-> Hnet].
      cbn [fst snd comp browser documents uploading toasts network
           localStorage console].
      repeat (split; [done|]).
      apply lookup_ge_None in Hlook.
      rewrite Ht, take_ge by done. by repeat split.
Qed.

Lemma elem_of_filter_other_than (d : Document) (i : Z) (l : list Document) :
  d ∈ List.filter (other_than i) l <-> d ∈ l /\ id d <> i.
Proof.
  rewrite !list_elem_of_In, List.filter_In.
  unfold other_than. rewrite negb_true_iff, Z.eqb_neq. done.
Qed.

(** Deleting: a declined confirmation changes nothing and sends nothing; a
    rejected request leaves the list as it was and raises an error toast;
    an accepted one removes exactly the documents with that id, keeping
    the others in their order. *)
Theorem handleDelete_outcomes (i : Z) (filename : jsstring)
    (w : World PageState) :
  let req := intercept (browser w) DELETE [Lit "/documents/"; Num i] None in
  let reply := on_delete backend (network (browser w)) req in
  let w' := (handleDelete backend confirm i filename w).2 in
  (handleDelete backend confirm i filename w).1 = Returned tt
  /\ (confirm (delete_prompt filename) = false -> w' = w)
  /\ (confirm (delete_prompt filename) = true ->
      network (browser w') = network (browser w) ++ [req]
      /\ (forall detail, reply = Rejected detail ->
            documents (comp w') = documents (comp w)
            /\ toasts (comp w') =
                 toasts (comp w)
                   ++ [ToastError (lit "Failed to delete document")])
      /\ (forall data, reply = Resolved data ->
            documents (comp w')
              = List.filter (fun d => negb (id d =? i)%Z) (documents (comp w))
            /\ (forall d, d ∈ documents (comp w') <->
                          d ∈ documents (comp w) /\ id d <> i)
            /\ toasts (comp w') =
                 toasts (comp w) ++ [ToastSuccess (lit "Document deleted")])).
Proof.
  intros req reply w'. subst req reply w'.
  unfold handleDelete, documentAPI_delete.
  destruct (confirm (delete_prompt filename)) eqn:Hconfirm; cbn [negb].
  - run_page.
    destruct (on_delete backend _ _) as [data|detail] eqn:Hreply; cbn.
    + split; [done|]. split; [done|]. intros _.
      split; [done|]. split; [by intros ? [=]|].
      intros data' _. split; [done|].
      split; [|done]. intros d. apply elem_of_filter_other_than.
    + split; [done|]. split; [done|]. intros _.
      split; [done|]. split; [done|]. by intros ? [=].
  - repeat split; done.
Qed.

(** Reindexing never throws.  If the request is rejected the list is left
    alone, nothing else is sent and an error toast is raised; if it is
    accepted a success toast is raised and the list is loaded again, so
    that the handler ends as [loadDocuments] does from there. *)
Theorem handleReindex_outcomes (i : Z) (w : World PageState) :
  let req := reindex_request (browser w) i in
  let st := comp w in
  handleReindex server backend i w =
    match on_reindex server (network (browser w)) req with
    | Resolved _ =>
        loadDocuments backend
          (mkWorld
             (mkPage (documents st) (loading st) (uploading st)
                (dragActive st)
                (toasts st
                   ++ [ToastSuccess (lit "Document reindexing started")]))
             (after_request (browser w) req))
    | Rejected detail =>
        (Returned tt,
         mkWorld
           (mkPage (documents st) (loading st) (uploading st)
              (dragActive st)
              (toasts st ++ [ToastError (lit "Failed to reindex document")]))
           (mkBrowser (localStorage (browser w))
              (network (browser w) ++ [req])
              (console (browser w)
                 ++ [("Error reindexing document:"%string,
                      AxiosError detail)])))
    end.
Proof.
  intros req st. subst req st.
  pose proof loadDocuments_returns as Hret.
  unfold handleReindex, documentAPI_reindex, reindex_request.
  set (reload := loadDocuments backend) in *. clearbody reload.
  run_page.
  destruct (on_reindex server _ _) as [data|detail]; cbn; [|done].
  match goal with
  | |- context [reload ?x] => destruct (Hret x) as [w' Hw']
  end.
  transitivity (@Returned unit tt, w'); [by rewrite Hw'|].
  symmetry. exact Hw'.
Qed.


End DocumentsPageFacts.

(** ** The properties above, on samples *)



Lemma sent_query_is_trimmed_and_not_blank_witness :
  exists (q : jsstring) (c1 c2 : N),
    network
      (browser (ChatInterface.handleSendMessage (Samples.rejecting None)
                  (Samples.chat_world "  what now?  " false)).2)
    = [] ++ [chat_query_request Samples.fresh_browser q (7 # 10) true]
    /\ head q = Some c1 /\ is_white_space c1 = false
    /\ last q = Some c2 /\ is_white_space c2 = false
    /\ trim q = q.
Proof.
  apply (sent_query_is_trimmed_and_not_blank (Samples.rejecting None)
           (Samples.chat_world "  what now?  " false)).
  reflexivity.
Defined.


Lemma submit_button_matches_handler_witness :
  ChatInterface.handleSendMessage (Samples.rejecting None)
    (Samples.chat_world "hi" true)
  = (Returned tt, Samples.chat_world "hi" true)
  /\ length
       (network
          (browser (ChatInterface.handleSendMessage (Samples.rejecting None)
                      (Samples.chat_world "hi" false)).2))
     = 1.
Proof.
  split.
  - apply (proj1 (submit_button_matches_handler (Samples.rejecting None)
                    (Samples.chat_world "hi" true))).
    reflexivity.
  - apply (proj2 (submit_button_matches_handler (Samples.rejecting None)
                    (Samples.chat_world "hi" false))).
    reflexivity.
Defined.

Lemma handleKeyDown_submits_on_plain_enter_witness :
  ChatControls.handleKeyDown (Samples.rejecting None)
    (ChatControls.mkKey "Enter" true) (Samples.chat_world "hi" false)
  = (Returned false, Samples.chat_world "hi" false)
  /\ ChatControls.handleKeyDown (Samples.rejecting None)
       (ChatControls.mkKey "Enter" false) (Samples.chat_world "hi" false)
     = (Returned true,
        (ChatInterface.handleSendMessage (Samples.rejecting None)
           (Samples.chat_world "hi" false)).2).
Proof.
  split.
  - apply (proj1 (handleKeyDown_submits_on_plain_enter
                    (Samples.rejecting None)
                    (ChatControls.mkKey "Enter" true)
                    (Samples.chat_world "hi" false))).
    right. reflexivity.
  - apply (proj2 (handleKeyDown_submits_on_plain_enter
                    (Samples.rejecting None)
                    (ChatControls.mkKey "Enter" false)
                    (Samples.chat_world "hi" false))).
    split; reflexivity.
Defined.

Lemma clicked_suggestion_is_sent_verbatim_witness :
  let suggestion := lit "Help me understand this document" in
  network
    (browser
       (ChatInterface.handleSendMessage (Samples.rejecting None)
          (ChatControls.click_suggestion suggestion
             (Samples.chat_world "" false)).2).2)
  = [] ++ [chat_query_request Samples.fresh_browser suggestion (7 # 10) true].
Proof.
  intros suggestion.
  apply (clicked_suggestion_is_sent_verbatim (Samples.rejecting None)
           (Samples.chat_world "" false) suggestion).
  - unfold ChatControls.suggestions.
    rewrite !elem_of_cons. right. right. left. reflexivity.
  - reflexivity.
Defined.

Lemma accepted_login_stores_token_and_user_witness :
  Store.login MoreSamples.login_with_user (lit "alice") (lit "pw")
    (Samples.auth_world Samples.fresh_browser)
  = (Returned tt,
     mkWorld (Store.mkAuth (Some Samples.alice) (Some (lit "tok")) false None)
       (mkBrowser {[ "access_token"%string := lit "tok" ]}
          ([] ++ [login_request Samples.fresh_browser (lit "alice")
                    (lit "pw")])
          []))
  /\ authorization
       (me_request (Samples.browser_with_token "tok"))
     = Some (lit "Bearer tok").
Proof.
  split.
  - apply (proj1 (accepted_login_stores_token_and_user
                    MoreSamples.login_with_user
                    (Samples.auth_world Samples.fresh_browser)
                    (lit "alice") (lit "pw")
                    (mkLoginData (lit "tok") (Some Samples.alice))
                    Samples.alice eq_refl)).
    reflexivity.
  - apply (proj1 (proj2 (accepted_login_stores_token_and_user
                    (MoreSamples.login_without_user (Resolved Samples.alice))
                    (Samples.auth_world Samples.fresh_browser)
                    (lit "alice") (lit "pw")
                    (mkLoginData (lit "tok") None)
                    Samples.alice eq_refl)));
      reflexivity.
Defined.

Lemma login_with_rejected_profile_keeps_token_witness :
  exists w',
    Store.login (MoreSamples.login_without_user (Rejected None))
      (lit "alice") (lit "pw") (Samples.auth_world Samples.fresh_browser)
    = (Thrown (AxiosError None), w')
    /\ Store.user (comp w') = None
    /\ Store.token (comp w') = Some (lit "tok")
    /\ localStorage (browser w') !! "access_token"%string = Some (lit "tok")
    /\ Store.error (comp w') = Some (lit "Login failed")
    /\ Store.isLoading (comp w') = false.
Proof.
  apply (login_with_rejected_profile_keeps_token
           (MoreSamples.login_without_user (Rejected None))
           (Samples.auth_world Samples.fresh_browser)
           (lit "alice") (lit "pw") (mkLoginData (lit "tok") None) None);
    reflexivity.
Defined.

Lemma register_outcomes_witness :
  (Store.error
     (comp (StoreActions.register
              (MoreSamples.unwilling (Some (lit "Email taken")))
              (lit "a@b.c") (lit "alice") (lit "pw") (lit "Alice")
              (Samples.auth_world Samples.fresh_browser)).2)
   = Some (lit "Email taken"))
  /\ (Store.token
        (comp (StoreActions.register MoreSamples.registering_with_token
                 (lit "a@b.c") (lit "alice") (lit "pw") (lit "Alice")
                 (Samples.auth_world Samples.fresh_browser)).2)
      = Some (lit "tok"))
  /\ (Store.token
        (comp (StoreActions.register MoreSamples.willing
                 (lit "a@b.c") (lit "alice") (lit "pw") (lit "Alice")
                 (Samples.auth_world Samples.fresh_browser)).2)
      = None).
Proof.
  split; [|split].
  - rewrite (proj1 (proj1 (register_outcomes
                 (MoreSamples.unwilling (Some (lit "Email taken")))
                 (Samples.auth_world Samples.fresh_browser)
                 (lit "a@b.c") (lit "alice") (lit "pw") (lit "Alice"))
               (Some (lit "Email taken")) eq_refl)).
    reflexivity.
  - rewrite (proj1 (proj2 (register_outcomes
                 MoreSamples.registering_with_token
                 (Samples.auth_world Samples.fresh_browser)
                 (lit "a@b.c") (lit "alice") (lit "pw") (lit "Alice")))
               116%N (lit "ok") (Some Samples.alice) eq_refl).
    reflexivity.
  - rewrite (proj2 (proj2 (register_outcomes MoreSamples.willing
                 (Samples.auth_world Samples.fresh_browser)
                 (lit "a@b.c") (lit "alice") (lit "pw") (lit "Alice")))
               Samples.alice eq_refl).
    reflexivity.
Defined.

Lemma store_token_mirrors_localStorage_when_sequential_witness :
  StoreActions.token_mirrors_storage
    (StoreActions.perform_all MoreSamples.login_with_user MoreSamples.willing
       [StoreActions.CheckAuth;
        StoreActions.Login (lit "alice") (lit "pw");
        StoreActions.ClearError;
        StoreActions.Logout;
        StoreActions.Register (lit "a@b.c") (lit "alice") (lit "pw")
          (lit "Alice")]
       (Samples.auth_world (Samples.browser_with_token "old")))
  /\ let w' := (StoreActions.checkAuth_with Samples.knowing_alice
                  (Store.logout)
                  (Samples.auth_world (Samples.browser_with_token "old"))).2 in
     Store.token (comp w') = Some (lit "old")
     /\ Store.user (comp w') = Some Samples.alice
     /\ localStorage (browser w') !! "access_token"%string = None
     /\ ~ StoreActions.token_mirrors_storage w'.
Proof.
  split.
  - apply (proj1 (store_token_mirrors_localStorage_when_sequential
                    MoreSamples.login_with_user MoreSamples.willing _ _)).
    reflexivity.
  - apply (proj2 (proj2 (store_token_mirrors_localStorage_when_sequential
                    Samples.knowing_alice MoreSamples.willing []
                    (Samples.auth_world (Samples.browser_with_token "old"))))
             (lit "old") Samples.alice);
      reflexivity.
Defined.

Lemma handleUpload_stops_at_first_failure_witness :
  let w := MoreSamples.page_world [] in
  let fs := MoreSamples.three_files in
  let req := DocumentsPage.upload_request (browser w) in
  exists added : list Documents.Document,
    let k := length added in
    let r := DocumentsPage.handleUpload MoreSamples.one_upload_only
               (Some fs) w in
    r.1 = Returned tt
    /\ DocumentsPage.uploading (comp r.2) = false
    /\ k <= length fs
    /\ (forall j d, added !! j = Some d ->
          exists f, fs !! j = Some f
                    /\ ApiMore.on_upload MoreSamples.one_upload_only
                         ([] ++ (req <$> take j fs)) (req f) = Resolved d)
    /\ DocumentsPage.documents (comp r.2) = rev added ++ []
    /\ localStorage (browser r.2) = localStorage (browser w)
    /\ match fs !! k with
       | None =>
           network (browser r.2) = [] ++ (req <$> fs)
           /\ DocumentsPage.toasts (comp r.2)
              = [] ++ (DocumentsPage.uploaded_toast <$> fs)
           /\ console (browser r.2) = []
       | Some f =>
           exists detail,
             ApiMore.on_upload MoreSamples.one_upload_only
               ([] ++ (req <$> take k fs)) (req f) = Rejected detail
             /\ network (browser r.2) = [] ++ (req <$> take (S k) fs)
             /\ DocumentsPage.toasts (comp r.2)
                = [] ++ (DocumentsPage.uploaded_toast <$> take k fs)
                    ++ [DocumentsPage.ToastError
                          (Store.detail_or (AxiosError detail)
                             (lit "Failed to upload document"))]
             /\ console (browser r.2)
                = [] ++ [("Error uploading document:"%string,
                          AxiosError detail)]
       end.
Proof.
  intros w fs req.
  apply (proj2 (handleUpload_stops_at_first_failure
                  MoreSamples.one_upload_only (Some fs) w) fs eq_refl).
  discriminate.
Defined.

(** Three files against a server that takes one upload: the first
    document is listed, the second request is the last one sent, and the
    toasts are one success and then the server's reason. *)
Example handleUpload_three_files_one_accepted :
  let r := DocumentsPage.handleUpload MoreSamples.one_upload_only
             (Some MoreSamples.three_files) (MoreSamples.page_world []) in
  r.1 = Returned tt
  /\ DocumentsPage.documents (comp r.2) = [Samples.indexed_report]
  /\ network (browser r.2)
     = DocumentsPage.upload_request Samples.fresh_browser
         <$> take 2 MoreSamples.three_files
  /\ DocumentsPage.toasts (comp r.2)
     = [DocumentsPage.ToastSuccess (lit "a.txt uploaded successfully");
        DocumentsPage.ToastError (lit "Too large")]
  /\ DocumentsPage.uploading (comp r.2) = false.
Proof. vm_compute. repeat split. Qed.

Lemma handleDelete_outcomes_witness :
  (DocumentsPage.handleDelete MoreSamples.willing (fun _ => false) 7
     (lit "report.pdf")
     (MoreSamples.page_world [Samples.indexed_report; Samples.failed_report])).2
  = MoreSamples.page_world [Samples.indexed_report; Samples.failed_report]
  /\ DocumentsPage.documents
       (comp (DocumentsPage.handleDelete MoreSamples.willing (fun _ => true) 7
                (lit "report.pdf")
                (MoreSamples.page_world
                   [Samples.indexed_report; Samples.failed_report])).2)
     = [Samples.failed_report].
Proof.
  split.
  - apply (proj1 (proj2 (handleDelete_outcomes MoreSamples.willing
                    (fun _ => false) 7 (lit "report.pdf")
                    (MoreSamples.page_world
                       [Samples.indexed_report; Samples.failed_report])))).
    reflexivity.
  - apply (proj1 (proj2 (proj2 (proj2 (proj2
               (handleDelete_outcomes MoreSamples.willing
                  (fun _ => true) 7 (lit "report.pdf")
                  (MoreSamples.page_world
                     [Samples.indexed_report; Samples.failed_report])))
               eq_refl)) JNull eq_refl)).
Defined.


(** The sizes of some files, as the list shows them. *)
Example formatFileSize_samples :
  DocumentsPage.formatFileSize <$> [0; 1023; 1024; 1280; 1536; 123456789]%Z
  = [Some "0 B"; Some "1023 B"; Some "1.0 KB"; Some "1.3 KB"; Some "1.5 KB";
     Some "117.7 MB"]%string.
Proof. vm_compute. reflexivity. Qed.

(** ** The sidebar and the register page *)

Section SidebarFacts.
Import ChatSidebar.


End SidebarFacts.

Section RegisterPageFacts.
Import Store ApiMore StoreActions RegisterPage.
Variable backend : Backend.

(** Submitting the registration form never throws.  It raises the success
    toast and goes to the login page exactly when the server accepted the
    registration, with or without a token; when the server rejected it,
    nothing is raised, the page stays, and the store holds the message to
    show. *)
Theorem register_page_leaves_only_on_success (w : World AuthState)
    (mail uname pwd full : jsstring) :
  let req := intercept (browser w) POST [Lit "/auth/register"]
               (Some [("email"%string, JStr mail);
                      ("username"%string, JStr uname);
                      ("password"%string, JStr pwd);
                      ("full_name"%string, JStr full)]) in
  let r := handleSubmit backend mail uname pwd full w in
  match on_register backend (network (browser w)) req with
  | Resolved _ =>
      r.1 = Returned
              (Some (lit "Account created successfully! Please login.",
                     "/login"%string))
      /\ error (comp r.2) = None
  | Rejected detail =>
      r.1 = Returned None
      /\ error (comp r.2)
         = Some (detail_or (AxiosError detail) (lit "Registration failed"))
      /\ user (comp r.2) = user (comp w)
      /\ token (comp r.2) = token (comp w)
  end
  /\ isLoading (comp r.2) = false.
Proof.
  intros req r. subst req r.
  unfold handleSubmit, register, authAPI_register, set. run_prog.
  by destruct (on_register backend _ _) as [[c rest u|u]|detail].
Qed.

End RegisterPageFacts.

